(** * lint.py: a shallow embedding of the Olypsys style checker

    The Python script [lint.py] classifies a file by its extension, checks
    the file name, runs a battery of substring rules over every line, then
    three whole-file rules (trailing newline, blank-line run, copyright
    header), printing one message per violation and returning their number.

    Conventions of the embedding:
    - a Python [str] is a [list ascii]; the model covers ASCII text, and a
      character above 127 is kept as an uncased, non-blank character;
    - [print] appends to an output log that is threaded through the
      computation; an exception stops the computation and keeps the log;
    - [date.today().year] and the content read from the file are arguments
      of [check_file]; the content is the text as Python hands it over
      (after decoding and newline translation), the same for both reads. *)

From Stdlib Require Import List Ascii Bool Arith Lia.
From Stdlib Require String DecimalString DecimalNat.
Import ListNotations String.StringSyntax.
Open Scope string_scope.
Open Scope list_scope.
Open Scope nat_scope.

(** ** Python strings *)

Module PyStr.

Definition str := list ascii.

Definition lit (s : String.string) : str := String.list_ascii_of_string s.

Definition nl : ascii := "010"%char.
Definition tab : ascii := "009"%char.
Definition cr : ascii := "013"%char.

Fixpoint str_eqb (a b : str) : bool :=
  match a, b with
  | [], [] => true
  | x :: a', y :: b' => Ascii.eqb x y && str_eqb a' b'
  | _, _ => false
  end.

Definition is_upper_char (c : ascii) : bool :=
  (65 <=? nat_of_ascii c) && (nat_of_ascii c <=? 90).

Definition is_lower_char (c : ascii) : bool :=
  (97 <=? nat_of_ascii c) && (nat_of_ascii c <=? 122).

Definition is_digit_char (c : ascii) : bool :=
  (48 <=? nat_of_ascii c) && (nat_of_ascii c <=? 57).

Definition lower_char (c : ascii) : ascii :=
  if is_upper_char c then ascii_of_nat (nat_of_ascii c + 32) else c.

Definition upper_char (c : ascii) : ascii :=
  if is_lower_char c then ascii_of_nat (nat_of_ascii c - 32) else c.

(** [s.lower()], [s.upper()] *)
Definition lower (s : str) : str := map lower_char s.
Definition upper (s : str) : str := map upper_char s.

(** [s.islower()], [s.isupper()]: some cased character, and none of the
    other case. *)
Definition islower (s : str) : bool :=
  existsb is_lower_char s && negb (existsb is_upper_char s).
Definition isupper (s : str) : bool :=
  existsb is_upper_char s && negb (existsb is_lower_char s).

(** [s.startswith(p)] *)
Fixpoint startswith (p s : str) : bool :=
  match p, s with
  | [], _ => true
  | x :: p', y :: s' => Ascii.eqb x y && startswith p' s'
  | _ :: _, [] => false
  end.

(** [s.endswith(p)] *)
Definition endswith (p s : str) : bool := startswith (rev p) (rev s).

(** [s.find(sub)], [None] for Python's -1 *)
Fixpoint find (sub s : str) : option nat :=
  if startswith sub s then Some 0
  else match s with
       | [] => None
       | _ :: t => option_map S (find sub t)
       end.

(** [sub in s] *)
Definition contains (sub s : str) : bool :=
  match find sub s with Some _ => true | None => false end.

(** [s.count(sub)]: occurrences found from the left, not overlapping.
    [skip] is the number of characters still covered by the last match. *)
Fixpoint count_from (sub : str) (skip : nat) (s : str) : nat :=
  match s with
  | [] => 0
  | _ :: t =>
      match skip with
      | S k => count_from sub k t
      | 0 => if startswith sub s
             then S (count_from sub (length sub - 1) t)
             else count_from sub 0 t
      end
  end.

Definition count (sub s : str) : nat :=
  match sub with
  | [] => S (length s)
  | _ :: _ => count_from sub 0 s
  end.

(** [s.count(sub, 0, stop)] for [0 <= stop] *)
Definition count_upto (sub : str) (stop : nat) (s : str) : nat :=
  count sub (firstn stop s).

(** [s.split(sep)] for a non-empty [sep]: [cur] holds the piece being
    read, last character first. *)
Fixpoint split_from (sep : str) (skip : nat) (cur : str) (s : str) : list str :=
  match s with
  | [] => [rev cur]
  | c :: t =>
      match skip with
      | S k => split_from sep k cur t
      | 0 => if startswith sep s
             then rev cur :: split_from sep (length sep - 1) [] t
             else split_from sep 0 (c :: cur) t
      end
  end.

Definition split (sep s : str) : list str := split_from sep 0 [] s.

(** the characters [str.strip()] removes, below 128 *)
Definition is_space_char (c : ascii) : bool :=
  let n := nat_of_ascii c in
  ((9 <=? n) && (n <=? 13)) || ((28 <=? n) && (n <=? 32)).

Fixpoint lstrip (s : str) : str :=
  match s with
  | [] => []
  | c :: t => if is_space_char c then lstrip t else s
  end.

Definition rstrip (s : str) : str := rev (lstrip (rev s)).

Definition strip (s : str) : str := rstrip (lstrip s).

(** [str(n)] for a natural number *)
Definition str_of_nat (n : nat) : str :=
  lit (DecimalString.NilEmpty.string_of_uint (Nat.to_uint n)).

(** the characters of [s] before its first [stop] *)
Fixpoint take_until (stop : ascii) (s : str) : str :=
  match s with
  | [] => []
  | c :: t => if Ascii.eqb c stop then [] else c :: take_until stop t
  end.

(** [os.path.basename(p)]: the characters of [p] after its last ["/"] *)
Definition basename (p : str) : str := rev (take_until "/"%char (rev p)).

(** the lines a text file yields when iterated: each keeps its ["\n"],
    a last line without one is yielded as it is. *)
Fixpoint lines_from (cur : str) (s : str) : list str :=
  match s with
  | [] => match cur with [] => [] | _ :: _ => [rev cur] end
  | c :: t => if Ascii.eqb c nl
              then rev (c :: cur) :: lines_from [] t
              else lines_from (c :: cur) t
  end.

Definition lines (s : str) : list str := lines_from [] s.

(** [re.compile(r'[A-Za-z0-9]\{').search(line)] as a truth value *)
Definition is_alnum_char (c : ascii) : bool :=
  is_upper_char c || is_lower_char c || is_digit_char c.

Fixpoint character_brace_search (s : str) : bool :=
  match s with
  | c :: ((d :: _) as t) =>
      (is_alnum_char c && Ascii.eqb d "{"%char) || character_brace_search t
  | _ => false
  end.

End PyStr.
Import PyStr.

(** ** Exceptions and output *)

Inductive exn : Type := IndexError | ValueError.

Inductive result (A : Type) : Type :=
| Ok (a : A)
| Raise (e : exn).
Arguments Ok {A} a.
Arguments Raise {A} e.

Definition rbind {A B} (r : result A) (k : A -> result B) : result B :=
  match r with
  | Ok a => k a
  | Raise e => Raise e
  end.

(** [s[i]] on a string and [l[i]] on a list raise [IndexError] out of
    range (only indices from 0 up are used). *)
Definition str_get (s : str) (i : nat) : result ascii :=
  match nth_error s i with
  | Some c => Ok c
  | None => Raise IndexError
  end.

Definition list_get {A} (l : list A) (i : nat) : result A :=
  match nth_error l i with
  | Some x => Ok x
  | None => Raise IndexError
  end.

(** ** The file types *)

Inductive FileType : Type := CPP | HPP | JAVA | KOTLIN | XML | SWIFT.

Definition FileType_eqb (a b : FileType) : bool :=
  match a, b with
  | CPP, CPP | HPP, HPP | JAVA, JAVA | KOTLIN, KOTLIN | XML, XML
  | SWIFT, SWIFT => true
  | _, _ => false
  end.

(** ** Naming predicates *)

(** [is_CamelCase]: the three flags are computed as the source computes
    them, under the source's names. *)
Definition is_CamelCase (s : str) : result bool :=
  let is_all_lower := negb (str_eqb s (lower s)) in
  let is_all_upper := negb (str_eqb s (upper s)) in
  let has_underscores := negb (contains (lit "_") s) in
  if is_all_lower || is_all_upper || has_underscores then Ok false
  else
    rbind (str_get s 0) (fun c0 =>
    if islower [c0] then Ok false else Ok true).

Definition is_snake_case (s : str) : bool :=
  let is_all_lower := negb (str_eqb s (lower s)) in
  let has_underscores := contains (lit "_") s in
  if is_all_lower then
    if 25 <? length s then
      if has_underscores then true else false
    else true
  else false.

(** ** File-type classification *)

Definition get_file_type (file_path : str) : result FileType :=
  if endswith (lit ".cpp") (lower file_path)
     || endswith (lit ".cxx") (lower file_path) then Ok CPP
  else if endswith (lit ".hpp") (lower file_path) then Ok HPP
  else if endswith (lit ".java") (lower file_path) then Ok JAVA
  else if endswith (lit ".kt") (lower file_path)
          || endswith (lit ".kts") (lower file_path) then Ok KOTLIN
  else if endswith (lit ".xml") (lower file_path) then Ok XML
  else if endswith (lit ".swift") (lower file_path) then Ok SWIFT
  else Raise ValueError.

(** ** Printed output *)

(** One constructor per error message of the script; the message text is
    given by [message]. *)
Inductive Rule : Type :=
| FileNameNotCamelCase | FileNameForbiddenChar
| LineTooLong | TabFound | TrailingWhitespace | MemberUppercase
| NamespaceBrace | ExtraSemicolon | SpaceBeforeSemicolon
| StructBrace | ClassBrace | EnumClassBrace | BraceElse
| CommentedImport | LineEndsSemicolon
| ExtraSpaceFunc | ExtraSpaceIf | ExtraSpaceThrow | ExtraSpaceLet
| ElseBrace | IfParen | ForParen | WhileParen | SwitchParen
| ParenBraceNewline | ParenBraceSpace | ParenTwoSpacesBrace | LetBrace
| CharacterBrace
| NoNewlineAtEof | ThreeNewlines | InvalidHeader.

Definition message (r : Rule) : str :=
  lit match r with
  | FileNameNotCamelCase => "File name should be CamelCase"
  | FileNameForbiddenChar =>
      "File name should not contain spaces, underscores or dashes"
  | LineTooLong => "Line length >100"
  | TabFound => "Tab found"
  | TrailingWhitespace => "Trailing whitespace found"
  | MemberUppercase => "m_ followed by uppercase letter"
  | NamespaceBrace => "Namespace with brace on the same line"
  | ExtraSemicolon => "Extra semicolon"
  | SpaceBeforeSemicolon => "Extra space before semicolon"
  | StructBrace => "Struct with brace on the same line"
  | ClassBrace => "Class with brace on the same line"
  | EnumClassBrace => "Enum Class with brace on the same line"
  | BraceElse => "}else, should be newline"
  | CommentedImport => "Commented import"
  | LineEndsSemicolon => "Line ends with ;"
  | ExtraSpaceFunc => "Extra space in function declaration"
  | ExtraSpaceIf => "Extra space in if statement"
  | ExtraSpaceThrow => "Extra space in throw statement"
  | ExtraSpaceLet => "Extra space in let statement"
  | ElseBrace => "else{, should be newline"
  | IfParen => "if( should be if ("
  | ForParen => "for( should be for ("
  | WhileParen => "while( should be while ("
  | SwitchParen => "switch( should be switch ("
  | ParenBraceNewline => ") { should be broken with newline"
  | ParenBraceSpace => "){ should be broken with space"
  | ParenTwoSpacesBrace => ")  { should be broken with a single space"
  | LetBrace => "let { should be broken with a single space"
  | CharacterBrace => "Character followed by a brace"
  | NoNewlineAtEof => "No newline at end of file"
  | ThreeNewlines => "three consecutive newlines at line"
  | InvalidHeader => "Invalid copyright header"
  end.

Definition Rule_eqb (a b : Rule) : bool :=
  match a, b with
  | FileNameNotCamelCase, FileNameNotCamelCase
  | FileNameForbiddenChar, FileNameForbiddenChar
  | LineTooLong, LineTooLong | TabFound, TabFound
  | TrailingWhitespace, TrailingWhitespace
  | MemberUppercase, MemberUppercase | NamespaceBrace, NamespaceBrace
  | ExtraSemicolon, ExtraSemicolon
  | SpaceBeforeSemicolon, SpaceBeforeSemicolon
  | StructBrace, StructBrace | ClassBrace, ClassBrace
  | EnumClassBrace, EnumClassBrace | BraceElse, BraceElse
  | CommentedImport, CommentedImport
  | LineEndsSemicolon, LineEndsSemicolon
  | ExtraSpaceFunc, ExtraSpaceFunc | ExtraSpaceIf, ExtraSpaceIf
  | ExtraSpaceThrow, ExtraSpaceThrow | ExtraSpaceLet, ExtraSpaceLet
  | ElseBrace, ElseBrace | IfParen, IfParen | ForParen, ForParen
  | WhileParen, WhileParen | SwitchParen, SwitchParen
  | ParenBraceNewline, ParenBraceNewline
  | ParenBraceSpace, ParenBraceSpace
  | ParenTwoSpacesBrace, ParenTwoSpacesBrace | LetBrace, LetBrace
  | CharacterBrace, CharacterBrace | NoNewlineAtEof, NoNewlineAtEof
  | ThreeNewlines, ThreeNewlines | InvalidHeader, InvalidHeader => true
  | _, _ => false
  end.

(** What [print] writes: an error line (file name, line number when the
    message carries one, and the rule whose message it is), or the
    free text printed next to a header error. *)
Inductive Output : Type :=
| Error (filename : str) (line : option nat) (rule : Rule)
| Text (s : str).

(** the error lines of rule [r] in a log *)
Definition is_error_of (r : Rule) (o : Output) : bool :=
  match o with
  | Error _ _ r' => Rule_eqb r r'
  | Text _ => false
  end.

Definition errors_of (r : Rule) (log : list Output) : list Output :=
  filter (is_error_of r) log.

Definition is_error (o : Output) : bool :=
  match o with Error _ _ _ => true | Text _ => false end.

(** ** The monad of the checker: output log and exceptions *)

Definition M (A : Type) : Type := list Output -> result A * list Output.

Definition ret {A} (a : A) : M A := fun log => (Ok a, log).

Definition bind {A B} (m : M A) (k : A -> M B) : M B :=
  fun log =>
    match m log with
    | (Ok a, log') => k a log'
    | (Raise e, log') => (Raise e, log')
    end.

Definition lift {A} (r : result A) : M A := fun log => (r, log).

Definition print (o : Output) : M unit := fun log => (Ok tt, log ++ [o]).

Notation "x <- m ;; k" := (bind m (fun x => k))
  (at level 61, m at next level, right associativity).
Notation "m ;; k" := (bind m (fun _ => k))
  (at level 61, right associativity).

(** [if cond: print(error); error_count += 1] *)
Definition report (cond : bool) (o : Output) (error_count : nat) : M nat :=
  if cond then print o ;; ret (error_count + 1) else ret error_count.

(** ** The file-name check *)

Definition check_file_path (file_path : str) : M nat :=
  let filename := basename file_path in
  let error_count := 0 in
  error_count <-
    (if negb (str_eqb filename (lit "main.cpp")) then
       c <- lift (is_CamelCase filename) ;;
       report c (Error filename None FileNameNotCamelCase) error_count
     else ret error_count) ;;
  report (contains (lit " ") filename || contains (lit "_") filename
          || contains (lit "-") filename)
         (Error filename None FileNameForbiddenChar) error_count.

(** ** The line rules *)

(** ["m_" in line and line.split("m_")[1][0].isupper()] *)
Definition member_uppercase (line : str) : result bool :=
  if contains (lit "m_") line then
    rbind (list_get (split (lit "m_") line) 1) (fun piece =>
    rbind (str_get piece 0) (fun c => Ok (isupper [c])))
  else Ok false.

Section CheckLine.

Variable filename : str.
Variable file_type : FileType.
Variable disable_line_length_checks : bool.

Definition is_type (t : FileType) : bool := FileType_eqb file_type t.

(** the body of the loop over the lines; [i] counts from 0 *)
Definition check_line (i : nat) (line : str) (error_count : nat) : M nat :=
  let here := Error filename (Some (i + 1)) in
  let has s := contains (lit s) line in
  error_count <-
    report (negb disable_line_length_checks && (100 <? length line))
           (here LineTooLong) error_count ;;
  error_count <- report (contains [tab] line) (here TabFound) error_count ;;
  error_count <-
    report (endswith (lit " ") line || endswith (lit " " ++ [nl]) line
            || endswith (lit " " ++ [cr]) line)
           (here TrailingWhitespace) error_count ;;
  m <- lift (member_uppercase line) ;;
  error_count <- report m (here MemberUppercase) error_count ;;
  error_count <-
    report (has "namespace " && has "{") (here NamespaceBrace) error_count ;;
  error_count <-
    report (has "}; // namespace") (here ExtraSemicolon) error_count ;;
  error_count <-
    report (has " ;") (here SpaceBeforeSemicolon) error_count ;;
  error_count <-
    (if is_type CPP || is_type HPP then
       error_count <-
         report (has "struct " && has "{") (here StructBrace) error_count ;;
       error_count <-
         report (has "class " && has "{") (here ClassBrace) error_count ;;
       report (has "enum class " && has "{") (here EnumClassBrace)
              error_count
     else ret error_count) ;;
  error_count <- report (has "}else") (here BraceElse) error_count ;;
  error_count <-
    (if is_type KOTLIN || is_type JAVA then
       report (startswith (lit "//import") (strip line)
               || startswith (lit "// import") (strip line))
              (here CommentedImport) error_count
     else ret error_count) ;;
  error_count <-
    (if is_type KOTLIN || is_type SWIFT then
       report (endswith (lit ";") line) (here LineEndsSemicolon) error_count
     else ret error_count) ;;
  error_count <-
    (if is_type KOTLIN then
       error_count <-
         report (has "func  ") (here ExtraSpaceFunc) error_count ;;
       error_count <- report (has "if  ") (here ExtraSpaceIf) error_count ;;
       error_count <-
         report (has "throw  ") (here ExtraSpaceThrow) error_count ;;
       report (has "let  ") (here ExtraSpaceLet) error_count
     else ret error_count) ;;
  error_count <- report (has "else{") (here ElseBrace) error_count ;;
  error_count <- report (has " if(") (here IfParen) error_count ;;
  error_count <- report (has " for(") (here ForParen) error_count ;;
  error_count <- report (has " while(") (here WhileParen) error_count ;;
  error_count <- report (has " switch(") (here SwitchParen) error_count ;;
  error_count <-
    (if is_type CPP || is_type HPP then
       report (has ") {" || has "){") (here ParenBraceNewline) error_count
     else ret error_count) ;;
  error_count <-
    (if is_type JAVA || is_type KOTLIN then
       error_count <-
         report (has "){") (here ParenBraceSpace) error_count ;;
       error_count <-
         report (has ")  {") (here ParenTwoSpacesBrace) error_count ;;
       report (has "let  {") (here LetBrace) error_count
     else ret error_count) ;;
  (if is_type JAVA || is_type KOTLIN || is_type SWIFT then
     report (character_brace_search line) (here CharacterBrace) error_count
   else ret error_count).

(** [for i, line in enumerate(f)] *)
Fixpoint check_lines (i : nat) (ls : list str) (error_count : nat) : M nat :=
  match ls with
  | [] => ret error_count
  | line :: rest =>
      error_count <- check_line i line error_count ;;
      check_lines (S i) rest error_count
  end.

End CheckLine.

(** ** The whole-file rules *)

(** [len(file_str) > 0 and file_str[-1] != '\n'] *)
Definition no_final_newline (file_str : str) : bool :=
  (0 <? length file_str) && negb (Ascii.eqb (last file_str nl) nl).

Definition check_final_newline (filename file_str : str) (error_count : nat)
  : M nat :=
  report (no_final_newline file_str) (Error filename None NoNewlineAtEof)
         error_count.

(** [s.index(sub)] raises [ValueError] when [sub] is absent *)
Definition str_index (sub s : str) : result nat :=
  match find sub s with
  | Some i => Ok i
  | None => Raise ValueError
  end.

Definition three_newlines : str := [nl; nl; nl].

Definition check_blank_run (filename file_str : str) (error_count : nat)
  : M nat :=
  if contains three_newlines file_str then
    stop <- lift (str_index three_newlines file_str) ;;
    let line_number := count_upto [nl] stop file_str + 1 in
    report true (Error filename (Some line_number) ThreeNewlines) error_count
  else ret error_count.

(** *** Copyright headers *)

Section Headers.

Variable year : nat.

(** the three lines every expected header begins with *)
Definition copyright_lines : str :=
  lit "///" ++ [nl]
  ++ lit "/// Copyright (c) " ++ str_of_nat year
  ++ lit " Olypsys Technologies Ltd. All rights reserved." ++ [nl]
  ++ lit "///".

Definition header_tests : str := copyright_lines.

Definition header_see (header_file_name : str) : str :=
  copyright_lines ++ [nl]
  ++ lit "/// See " ++ header_file_name ++ lit " for documentation." ++ [nl]
  ++ lit "///".

Definition header_file_brief (filename : str) : str :=
  copyright_lines ++ [nl]
  ++ lit "/// \file " ++ filename ++ [nl]
  ++ lit "///" ++ [nl]
  ++ lit "/// \brief".

Definition header_part_of (app : str) : str :=
  copyright_lines ++ [nl]
  ++ lit "/// This file is part of the Olypsys " ++ app ++ lit " App." ++ [nl]
  ++ lit "///" ++ [nl].

(** [if not file_str.startswith(expected_header): ...], the block every
    branch of the header stage ends with *)
Definition expect_header (filename file_str expected_header : str)
    (error_count : nat) : M nat :=
  if negb (startswith expected_header file_str) then
    print (Error filename None InvalidHeader) ;;
    print (Text (lit "Expected: " ++ [nl] ++ expected_header)) ;;
    print (Text ([nl; nl] ++ lit "Actual: " ++ [nl]
                 ++ firstn (length expected_header) file_str)) ;;
    ret (error_count + 1)
  else ret error_count.

Definition check_header (file_type : FileType) (filename file_str : str)
    (error_count : nat) : M nat :=
  let is_cpp_tests_file :=
    startswith (lit "Test") filename && FileType_eqb file_type CPP in
  error_count <-
    (if is_cpp_tests_file then
       expect_header filename file_str header_tests error_count
     else ret error_count) ;;
  error_count <-
    (if negb is_cpp_tests_file && FileType_eqb file_type CPP then
       let header_file_name :=
         firstn (length filename - 4) filename ++ lit ".hpp" in
       let expected_header := header_see header_file_name in
       let expected_header :=
         if str_eqb filename (lit "main.cpp")
         then header_file_brief filename else expected_header in
       expect_header filename file_str expected_header error_count
     else ret error_count) ;;
  error_count <-
    (if FileType_eqb file_type HPP then
       expect_header filename file_str (header_file_brief filename)
                     error_count
     else ret error_count) ;;
  error_count <-
    (if FileType_eqb file_type JAVA || FileType_eqb file_type KOTLIN then
       expect_header filename file_str (header_part_of (lit "Android"))
                     error_count
     else ret error_count) ;;
  (if FileType_eqb file_type SWIFT then
     expect_header filename file_str (header_part_of (lit "iOS")) error_count
   else ret error_count).

(** ** [check_file] *)

Definition check_file (file_path file_str : str)
    (disable_line_length_checks : bool) : M nat :=
  let filename := basename file_path in
  file_type <- lift (get_file_type file_path) ;;
  let error_count := 0 in
  n <- check_file_path file_path ;;
  let error_count := error_count + n in
  error_count <-
    check_lines filename file_type disable_line_length_checks
                0 (lines file_str) error_count ;;
  error_count <- check_final_newline filename file_str error_count ;;
  error_count <- check_blank_run filename file_str error_count ;;
  check_header file_type filename file_str error_count.

End Headers.

(** a run from an empty log *)
Definition run {A} (m : M A) : result A * list Output := m [].

(** ** What the specification says, in its own words *)

Module Spec.

(** "entirely lowercase", "entirely uppercase": no character that
    lowering (raising) would change *)
Definition entirely_lowercase (s : str) : bool := str_eqb s (lower s).
Definition entirely_uppercase (s : str) : bool := str_eqb s (upper s).

Definition first_is_uppercase (s : str) : bool :=
  match s with
  | [] => false
  | c :: _ => is_upper_char c
  end.

(** "true iff s is not entirely lowercase, not entirely uppercase,
    contains no underscore, and its first character is uppercase" *)
Definition isUpperCamelCase (s : str) : bool :=
  negb (entirely_lowercase s) && negb (entirely_uppercase s)
  && negb (contains (lit "_") s) && first_is_uppercase s.

(** "true iff s is entirely lowercase AND (length <= 25, OR length > 25
    and contains an underscore)" *)
Definition isLongSnakeCase (s : str) : bool :=
  entirely_lowercase s
  && ((length s <=? 25) || ((25 <? length s) && contains (lit "_") s)).

(** the extension of a path: from its last ["."] to its end, empty when
    the path has no ["."] *)
Definition is_dot (c : ascii) : bool := Ascii.eqb c "."%char.

Definition extension (p : str) : str :=
  if existsb is_dot p
  then "."%char :: rev (take_until "."%char (rev p))
  else [].

(** the table of section 4.1, on a lowercased extension; CSource, CHeader,
    Java, Kotlin, Xml and Swift are the source's [CPP], [HPP], [JAVA],
    [KOTLIN], [XML] and [SWIFT] *)
Definition kind_of_extension (e : str) : option FileType :=
  if str_eqb e (lit ".cpp") || str_eqb e (lit ".cxx") then Some CPP
  else if str_eqb e (lit ".hpp") then Some HPP
  else if str_eqb e (lit ".java") then Some JAVA
  else if str_eqb e (lit ".kt") || str_eqb e (lit ".kts") then Some KOTLIN
  else if str_eqb e (lit ".xml") then Some XML
  else if str_eqb e (lit ".swift") then Some SWIFT
  else None.

(** "return its FileKind by case-insensitive extension match ... any other
    extension ... fails with UnsupportedFileKind" *)
Definition classify (p : str) : result FileType :=
  match kind_of_extension (lower (extension p)) with
  | Some k => Ok k
  | None => Raise ValueError
  end.

(** "substring m_ immediately followed by an uppercase letter": at some
    position the line reads ["m_"] and then an uppercase letter *)
Definition member_uppercase_here (line : str) : bool :=
  startswith (lit "m_") line
  && match skipn 2 line with
     | c :: _ => is_upper_char c
     | [] => false
     end.

Fixpoint has_member_uppercase (line : str) : bool :=
  match line with
  | [] => false
  | _ :: t => member_uppercase_here line || has_member_uppercase t
  end.

(** the banner of section 6 for a C header, year [Y] and file name [F],
    written as the text a conforming file begins with *)
Definition banner_header (Y : nat) (F : str) : str :=
  lit "///
/// Copyright (c) " ++ str_of_nat Y
  ++ lit " Olypsys Technologies Ltd. All rights reserved.
///
/// \file " ++ F ++ lit "
///
/// \brief".

End Spec.

(** ** The rules that apply to every file type *)

Section Universal.

Variable filename : str.
Variable disable_line_length_checks : bool.

(** the line rules of section 4.4 that no file type gates, in the order
    of the source *)
Definition check_line_universal (i : nat) (line : str) (error_count : nat)
  : M nat :=
  let here := Error filename (Some (i + 1)) in
  let has s := contains (lit s) line in
  error_count <-
    report (negb disable_line_length_checks && (100 <? length line))
           (here LineTooLong) error_count ;;
  error_count <- report (contains [tab] line) (here TabFound) error_count ;;
  error_count <-
    report (endswith (lit " ") line || endswith (lit " " ++ [nl]) line
            || endswith (lit " " ++ [cr]) line)
           (here TrailingWhitespace) error_count ;;
  m <- lift (member_uppercase line) ;;
  error_count <- report m (here MemberUppercase) error_count ;;
  error_count <-
    report (has "namespace " && has "{") (here NamespaceBrace) error_count ;;
  error_count <-
    report (has "}; // namespace") (here ExtraSemicolon) error_count ;;
  error_count <-
    report (has " ;") (here SpaceBeforeSemicolon) error_count ;;
  error_count <- report (has "}else") (here BraceElse) error_count ;;
  error_count <- report (has "else{") (here ElseBrace) error_count ;;
  error_count <- report (has " if(") (here IfParen) error_count ;;
  error_count <- report (has " for(") (here ForParen) error_count ;;
  error_count <- report (has " while(") (here WhileParen) error_count ;;
  report (has " switch(") (here SwitchParen) error_count.

Fixpoint check_lines_universal (i : nat) (ls : list str) (error_count : nat)
  : M nat :=
  match ls with
  | [] => ret error_count
  | line :: rest =>
      error_count <- check_line_universal i line error_count ;;
      check_lines_universal (S i) rest error_count
  end.

End Universal.

(** a check made of the file-name check, the ungated line rules, the
    trailing-newline rule and the blank-run rule, and of nothing else *)
Definition check_file_ungated (file_path file_str : str)
    (disable_line_length_checks : bool) : M nat :=
  let filename := basename file_path in
  n <- check_file_path file_path ;;
  error_count <-
    check_lines_universal filename disable_line_length_checks
                          0 (lines file_str) (0 + n) ;;
  error_count <- check_final_newline filename file_str error_count ;;
  check_blank_run filename file_str error_count.

(** ** Reading a computation *)

(** [m] returns [a] after printing exactly [outs], whatever was printed
    before. *)
Definition returns {A} (m : M A) (a : A) (outs : list Output) : Prop :=
  forall log, m log = (Ok a, log ++ outs).

(** [m] raises [e] after printing exactly [outs]. *)
Definition raises {A} (m : M A) (e : exn) (outs : list Output) : Prop :=
  forall log, m log = (Raise e, log ++ outs).

(** Whether it returns or raises, [m] keeps what was printed and adds only
    outputs that satisfy [P]. *)
Definition prints_only {A} (P : Output -> Prop) (m : M A) : Prop :=
  forall log, exists outs, snd (m log) = log ++ outs /\ Forall P outs.

(** a line on which the member-naming rule can be evaluated *)
Definition member_rule_defined (line : str) : Prop :=
  exists m, member_uppercase line = Ok m.

(** replacing the character at index [i] *)
Definition set_char (i : nat) (c : ascii) (s : str) : str :=
  firstn i s ++ c :: skipn (S i) s.

(** the number of newline characters of a text *)
Definition newlines_in (s : str) : nat := count_occ ascii_dec s nl.

(** [s] contains [sub] *)
Definition occurs (sub s : str) : Prop :=
  exists pre post, s = pre ++ sub ++ post.

(** ** Finding the files *)

(** [os.path.join(root, filename)] *)
Definition path_join (root filename : str) : str :=
  if startswith (lit "/") filename then filename
  else if str_eqb root [] || endswith (lit "/") root then root ++ filename
  else root ++ lit "/" ++ filename.

Section Discovery.

(** [os.walk(folder)]: the folders from [folder] down, each with the names
    of the files in it *)
Variable os_walk : str -> list (str * list str).

Definition _find_files_by_extension (folder_to_search : str)
    (matching_extensions : list str) (filepath_contains : option (list str))
  : list str :=
  flat_map
    (fun '(root, filenames) =>
       flat_map
         (fun filename =>
            if negb (existsb (fun ext => endswith ext filename)
                             matching_extensions)
            then []
            else
              let file_path := path_join root filename in
              match filepath_contains with
              | Some substrings =>
                  if forallb (fun x => negb (contains x file_path))
                             substrings
                  then [] else [file_path]
              | None => [file_path]
              end)
         filenames)
    (os_walk folder_to_search).

Definition find_cpp_files (folder_to_search : str) : list str :=
  _find_files_by_extension folder_to_search [lit ".cpp"; lit ".hpp"]
    (Some [lit "buzzard/core"; lit "buzzard/ui"; lit "./tests/"]).

Definition find_android_files (folder_to_search : str) : list str :=
  _find_files_by_extension folder_to_search
    [lit ".java"; lit ".kt"; lit ".ktx"] None.

Definition find_swift_files (folder_to_search : str) : list str :=
  _find_files_by_extension folder_to_search [lit ".swift"]
    (Some [lit "Olypsys/"]).

(** ** The main block *)

Variable year : nat.
(** [os.path.isdir] *)
Variable isdir : str -> bool.
(** the content read from the file at a path *)
Variable read : str -> str.

Definition rb : str := "027"%char :: lit "[1;91m".
Definition gb : str := "027"%char :: lit "[1;92m".
Definition fe : str := "027"%char :: lit "[0m".

(** the files the run checks, from [sys.argv] *)
Definition files_of_argv (argv : list str) : list str :=
  match argv with
  | _ :: to_check :: _ =>
      if isdir to_check
      then find_cpp_files to_check ++ find_android_files to_check
           ++ find_swift_files to_check
      else [to_check]
  | _ =>
      find_cpp_files (lit ".") ++ find_android_files (lit ".")
      ++ find_swift_files (lit ".")
  end.

(** [for file in files: error_count += check_file(file)] *)
Fixpoint check_files (files : list str) (error_count : nat) : M nat :=
  match files with
  | [] => ret error_count
  | file :: rest =>
      n <- check_file year file (read file) true ;;
      check_files rest (error_count + n)
  end.

(** the main block; the value returned is the exit code *)
Definition main (argv : list str) : M nat :=
  let files := files_of_argv argv in
  let n_files := length files in
  error_count <- check_files files 0 ;;
  if 0 <? error_count then
    let plural := if 1 <? error_count then lit "s" else [] in
    print (Text (rb ++ str_of_nat error_count ++ lit " error" ++ plural
                 ++ lit " found in " ++ str_of_nat n_files
                 ++ lit " files.")) ;;
    ret 1
  else
    print (Text (gb ++ lit "All " ++ str_of_nat n_files
                 ++ lit " source files passed linting" ++ fe)) ;;
    ret 0.

End Discovery.

(** ** Counting *)

(** A computation started with the count [error_count] counts its errors
    when the count it returns is [error_count] plus the number of error
    lines it has printed. *)
Definition counts_from (error_count : nat) (m : M nat) : Prop :=
  forall log n log',
    m log = (Ok n, log') ->
    exists outs,
      log' = log ++ outs /\ n = error_count + length (filter is_error outs).

(** an error line of the file [filename] at a line from [lo] (excluded)
    to [hi] (included) *)
Definition line_error_in (filename : str) (lo hi : nat) (o : Output) : Prop :=
  exists k r, o = Error filename (Some k) r /\ lo < k <= hi.

(** ** Strings: basic facts *)

Section StringFacts.

Lemma str_eqb_eq (a b : str) : str_eqb a b = true <-> a = b.
Proof.
  revert b; induction a as [|x a IH]; intros [|y b]; simpl;
    try (split; [discriminate | congruence]); try tauto.
  rewrite andb_true_iff, Ascii.eqb_eq, IH.
  split; [intros [-> ->]; reflexivity | intros [= -> ->]; auto].
Qed.

Lemma str_eqb_refl (a : str) : str_eqb a a = true.
Proof. apply str_eqb_eq; reflexivity. Qed.

Lemma startswith_app (p s : str) :
  startswith p s = true <-> exists t, s = p ++ t.
Proof.
  revert s; induction p as [|x p IH]; intros s; simpl.
  - split; [intros _; exists s; reflexivity | reflexivity].
  - destruct s as [|y s].
    + split; [discriminate | intros [t Ht]; discriminate].
    + rewrite andb_true_iff, Ascii.eqb_eq, IH. split.
      * intros [-> [t ->]]. exists t; reflexivity.
      * intros [t [= -> ->]]. split; [reflexivity | exists t; reflexivity].
Qed.

Lemma startswith_firstn (p s : str) :
  startswith p s = true <-> firstn (length p) s = p.
Proof.
  rewrite startswith_app. split.
  - intros [t ->]. rewrite firstn_app, Nat.sub_diag, firstn_all. simpl.
    apply app_nil_r.
  - intros H. exists (skipn (length p) s).
    rewrite <- H at 1. symmetry. apply firstn_skipn.
Qed.

Lemma endswith_app (p s : str) :
  endswith p s = true <-> exists t, s = t ++ p.
Proof.
  unfold endswith. rewrite startswith_app. split.
  - intros [t Ht]. exists (rev t).
    rewrite <- (rev_involutive s), Ht, rev_app_distr, rev_involutive.
    reflexivity.
  - intros [t ->]. exists (rev t). apply rev_app_distr.
Qed.

Lemma startswith_nil_r (p : str) : startswith p [] = true -> p = [].
Proof. destruct p; [reflexivity | discriminate]. Qed.

End StringFacts.

(** ** Characters *)

Section CharFacts.

Ltac each_char c := destruct c as [[] [] [] [] [] [] [] []]; vm_compute.

Lemma lower_char_dot (c : ascii) :
  Ascii.eqb (lower_char c) "."%char = Ascii.eqb c "."%char.
Proof. each_char c; reflexivity. Qed.

Lemma upper_char_fixed (c : ascii) : upper_char c = c -> is_lower_char c = false.
Proof. each_char c; intros H; solve [reflexivity | discriminate H]. Qed.

Lemma lower_char_fixed (c : ascii) : lower_char c = c -> is_upper_char c = false.
Proof. each_char c; intros H; solve [reflexivity | discriminate H]. Qed.

Lemma not_upper_lower_char (c : ascii) :
  is_upper_char c = false -> lower_char c = c.
Proof. unfold lower_char. intros ->. reflexivity. Qed.

Lemma not_lower_upper_char (c : ascii) :
  is_lower_char c = false -> upper_char c = c.
Proof. unfold upper_char. intros ->. reflexivity. Qed.

Lemma islower_single (c : ascii) : islower [c] = is_lower_char c.
Proof. each_char c; reflexivity. Qed.

Lemma isupper_single (c : ascii) : isupper [c] = is_upper_char c.
Proof. each_char c; reflexivity. Qed.

End CharFacts.

(** ** The classifier *)

Section Classifier.

Import Spec.

Lemma existsb_rev {A} (f : A -> bool) (l : list A) :
  existsb f (rev l) = existsb f l.
Proof.
  apply eq_iff_eq_true. rewrite !existsb_exists.
  split; intros [x [Hin Hx]]; exists x; split; auto;
    [apply in_rev | apply in_rev in Hin]; assumption.
Qed.

Lemma take_until_lower (s : str) :
  take_until "."%char (lower s) = lower (take_until "."%char s).
Proof.
  induction s as [|c s IH]; simpl; [reflexivity|].
  rewrite lower_char_dot. destruct (Ascii.eqb c "."%char); simpl;
    [reflexivity | rewrite IH; reflexivity].
Qed.

Lemma existsb_dot_lower (s : str) :
  existsb is_dot (lower s) = existsb is_dot s.
Proof.
  induction s as [|c s IH]; simpl; [reflexivity|].
  unfold is_dot at 1 3. rewrite lower_char_dot, IH. reflexivity.
Qed.

Lemma extension_lower (p : str) :
  Spec.extension (lower p) = lower (Spec.extension p).
Proof.
  unfold Spec.extension. fold is_dot. rewrite existsb_dot_lower.
  destruct (existsb is_dot p); [|reflexivity].
  replace (rev (lower p)) with (lower (rev p))
    by (unfold lower; apply map_rev).
  rewrite take_until_lower. unfold lower. simpl. rewrite map_rev.
  reflexivity.
Qed.

Lemma startswith_until (w r : str) :
  existsb is_dot w = false ->
  startswith (w ++ ["."%char]) r = true
  <-> take_until "."%char r = w /\ existsb is_dot r = true.
Proof.
  revert r; induction w as [|x w IH]; intros r Hw.
  - destruct r as [|c t]; cbn [startswith app take_until existsb].
    + split; [discriminate | intros [_ H]; discriminate].
    + unfold is_dot. rewrite (Ascii.eqb_sym "."%char c).
      destruct (Ascii.eqb c "."%char); cbn [andb orb].
      * tauto.
      * split; [discriminate | intros [H _]; discriminate].
  - cbn [existsb] in Hw. apply orb_false_iff in Hw as [Hx Hw].
    destruct r as [|c t]; cbn [startswith app take_until existsb].
    + split; [discriminate | intros [_ H]; discriminate].
    + rewrite andb_true_iff, Ascii.eqb_eq, (IH t Hw).
      unfold is_dot in *.
      destruct (Ascii.eqb c "."%char) eqn:Hc; cbn [orb].
      * apply Ascii.eqb_eq in Hc. subst c. split.
        -- intros [-> _]. discriminate.
        -- intros [H _]; discriminate.
      * split.
        -- intros [-> [-> H]]. auto.
        -- intros [[= -> ->] H]. auto.
Qed.

(** ending in [".w"] is having the extension [".w"] *)
Lemma endswith_extension (e w s : str) :
  e = "."%char :: w -> existsb is_dot w = false ->
  endswith e s = str_eqb (Spec.extension s) e.
Proof.
  intros -> Hw. apply eq_iff_eq_true.
  unfold endswith. simpl rev.
  rewrite startswith_until by (rewrite existsb_rev; exact Hw).
  rewrite existsb_rev, str_eqb_eq. unfold Spec.extension. fold is_dot.
  destruct (existsb is_dot s).
  - split.
    + intros [-> _]. rewrite rev_involutive. reflexivity.
    + intros [= H]. split; [|reflexivity].
      rewrite <- H, rev_involutive. reflexivity.
  - split; [intros [_ H]; discriminate | discriminate].
Qed.

(** C9. For every path, [get_file_type] returns the kind that the table
    of section 4.1 gives for the lowercased extension of the path
    (.cpp/.cxx, .hpp, .java, .kt/.kts, .xml, .swift), and raises on every
    other extension instead of returning a kind. *)
Theorem get_file_type_by_extension (file_path : str) :
  get_file_type file_path = Spec.classify file_path.
Proof.
  unfold get_file_type, Spec.classify, Spec.kind_of_extension.
  rewrite <- extension_lower.
  rewrite (endswith_extension (lit ".cpp") (lit "cpp")),
          (endswith_extension (lit ".cxx") (lit "cxx")),
          (endswith_extension (lit ".hpp") (lit "hpp")),
          (endswith_extension (lit ".java") (lit "java")),
          (endswith_extension (lit ".kt") (lit "kt")),
          (endswith_extension (lit ".kts") (lit "kts")),
          (endswith_extension (lit ".xml") (lit "xml")),
          (endswith_extension (lit ".swift") (lit "swift"))
    by reflexivity.
  repeat match goal with
         | |- context [str_eqb ?a ?b] => destruct (str_eqb a b); simpl
         end; reflexivity.
Qed.

End Classifier.

(** ** Rules of the monad *)

Section MonadFacts.

Context {A B : Type}.

Lemma returns_ret (a : A) : returns (ret a) a [].
Proof. intros log. unfold ret. rewrite app_nil_r. reflexivity. Qed.

Lemma returns_lift (a : A) : returns (lift (Ok a)) a [].
Proof. intros log. unfold lift. rewrite app_nil_r. reflexivity. Qed.

Lemma returns_bind (m : M A) (k : A -> M B) a b o1 o2 :
  returns m a o1 -> returns (k a) b o2 -> returns (bind m k) b (o1 ++ o2).
Proof.
  intros Hm Hk log. unfold bind. rewrite Hm, Hk, app_assoc. reflexivity.
Qed.

Lemma returns_if (c : bool) (m1 m2 : M A) a1 a2 o1 o2 :
  returns m1 a1 o1 -> returns m2 a2 o2 ->
  returns (if c then m1 else m2) (if c then a1 else a2)
          (if c then o1 else o2).
Proof. destruct c; auto. Qed.

Lemma raises_lift (e : exn) : raises (@lift A (Raise e)) e [].
Proof. intros log. unfold lift. rewrite app_nil_r. reflexivity. Qed.

Lemma raises_bind_l (m : M A) (k : A -> M B) e o1 :
  raises m e o1 -> raises (bind m k) e o1.
Proof. intros Hm log. unfold bind. rewrite Hm. reflexivity. Qed.

Lemma raises_bind_r (m : M A) (k : A -> M B) a e o1 o2 :
  returns m a o1 -> raises (k a) e o2 -> raises (bind m k) e (o1 ++ o2).
Proof.
  intros Hm Hk log. unfold bind. rewrite Hm, Hk, app_assoc. reflexivity.
Qed.

Lemma bind_ext (m : M A) (k k' : A -> M B) log :
  (forall a log', k a log' = k' a log') -> bind m k log = bind m k' log.
Proof.
  intros H. unfold bind. destruct (m log) as [[a|e] log']; auto.
Qed.

Lemma prints_only_ret P (a : A) : prints_only P (ret a).
Proof. intros log. exists []. rewrite app_nil_r. auto. Qed.

Lemma prints_only_lift P (r : result A) : prints_only P (lift r).
Proof. intros log. exists []. rewrite app_nil_r. auto. Qed.

Lemma prints_only_bind P (m : M A) (k : A -> M B) :
  prints_only P m -> (forall a, prints_only P (k a)) ->
  prints_only P (bind m k).
Proof.
  intros Hm Hk log. unfold bind.
  destruct (Hm log) as [o1 [E1 F1]].
  destruct (m log) as [[a|e] log']; simpl in E1; subst log'.
  - destruct (Hk a (log ++ o1)) as [o2 [E2 F2]].
    exists (o1 ++ o2). rewrite E2, app_assoc. split; [reflexivity|].
    apply Forall_app; auto.
  - exists o1. auto.
Qed.

Lemma prints_only_if P (c : bool) (m1 m2 : M A) :
  prints_only P m1 -> prints_only P m2 ->
  prints_only P (if c then m1 else m2).
Proof. destruct c; auto. Qed.

End MonadFacts.

Lemma returns_print (o : Output) : returns (print o) tt [o].
Proof. intros log. reflexivity. Qed.

Lemma returns_report (cond : bool) (o : Output) (error_count : nat) :
  returns (report cond o error_count)
          (error_count + (if cond then 1 else 0))
          (if cond then [o] else []).
Proof.
  unfold report. destruct cond.
  - change [o] with ([o] ++ []).
    eapply returns_bind; [apply returns_print | apply returns_ret].
  - rewrite Nat.add_0_r. apply returns_ret.
Qed.

Lemma prints_only_print (P : Output -> Prop) (o : Output) :
  P o -> prints_only P (print o).
Proof. intros H log. exists [o]. auto. Qed.

Lemma prints_only_report (P : Output -> Prop) cond o error_count :
  P o -> prints_only P (report cond o error_count).
Proof.
  intros H. unfold report. destruct cond.
  - apply prints_only_bind; [apply prints_only_print; exact H|].
    intros _. apply prints_only_ret.
  - apply prints_only_ret.
Qed.

Lemma returns_run {A} (m : M A) a outs :
  returns m a outs -> run m = (Ok a, outs).
Proof. intros H. exact (H []). Qed.

Lemma raises_run {A} (m : M A) e outs :
  raises m e outs -> run m = (Raise e, outs).
Proof. intros H. exact (H []). Qed.

Lemma returns_unique {A} (m : M A) a a' outs outs' :
  returns m a outs -> returns m a' outs' -> a = a' /\ outs = outs'.
Proof.
  intros H H'. specialize (H []). specialize (H' []).
  rewrite H in H'. injection H' as -> ->. auto.
Qed.

(** the steps that build a [returns] fact along the code *)
Ltac returns_step :=
  first
    [ apply returns_ret
    | apply returns_report
    | apply returns_lift
    | apply returns_print
    | eapply returns_bind; [returns_step | cbv beta; returns_step]
    | eapply returns_if; returns_step ].

(** the steps that build a [prints_only] fact along the code *)
Ltac prints_only_step :=
  first
    [ apply prints_only_ret
    | apply prints_only_lift
    | apply prints_only_report; reflexivity
    | apply prints_only_print; reflexivity
    | apply prints_only_bind; [prints_only_step | intro; prints_only_step]
    | apply prints_only_if; prints_only_step ].

(** ** The naming predicates *)

Section Naming.

Lemma contains_cons_nonempty (x : ascii) (sub s : str) :
  contains (x :: sub) s = true -> exists c t, s = c :: t.
Proof.
  destruct s as [|c t]; [discriminate|]. intros _. exists c, t. reflexivity.
Qed.

(** [s[0]] is never out of range in [is_CamelCase]: the function is total *)
Lemma is_CamelCase_total (s : str) : exists b, is_CamelCase s = Ok b.
Proof.
  unfold is_CamelCase.
  destruct (negb (str_eqb s (lower s)) || negb (str_eqb s (upper s))
            || negb (contains (lit "_") s)) eqn:E.
  - exists false. reflexivity.
  - apply orb_false_iff in E as [_ E]. apply negb_false_iff in E.
    apply contains_cons_nonempty in E as [c [t ->]]. simpl.
    destruct (islower [c]); eauto.
Qed.

(** what the code accepts: names without any cased character that contain
    an underscore *)
Lemma is_CamelCase_true_iff (s : str) :
  is_CamelCase s = Ok true
  <-> s = lower s /\ s = upper s /\ contains (lit "_") s = true.
Proof.
  unfold is_CamelCase.
  destruct (str_eqb s (lower s)) eqn:El; cbn [negb orb].
  2:{ split; [discriminate|]. intros [H _]. apply str_eqb_eq in H.
      congruence. }
  destruct (str_eqb s (upper s)) eqn:Eu; cbn [negb orb].
  2:{ split; [discriminate|]. intros [_ [H _]]. apply str_eqb_eq in H.
      congruence. }
  destruct (contains (lit "_") s) eqn:Ec; cbn [negb orb].
  2:{ split; [discriminate|]. intros [_ [_ H]]. discriminate H. }
  apply str_eqb_eq in El, Eu.
  apply contains_cons_nonempty in Ec as [c [t ->]].
  pose proof Eu as Eu'.
  unfold upper in Eu. cbn [map] in Eu. injection Eu as Eu _.
  symmetry in Eu. apply upper_char_fixed in Eu.
  cbn [str_get nth_error rbind]. rewrite islower_single, Eu.
  split; [intros _; repeat split; assumption | reflexivity].
Qed.

(** every name the specified predicate accepts is rejected by the code *)
Lemma is_CamelCase_rejects_camel (s : str) :
  Spec.isUpperCamelCase s = true -> is_CamelCase s = Ok false.
Proof.
  unfold Spec.isUpperCamelCase, Spec.entirely_lowercase, is_CamelCase.
  rewrite !andb_true_iff. intros [[[H _] _] _]. rewrite H. reflexivity.
Qed.

(** C1. On ["FooBar"], which the specified predicate accepts (not entirely
    lowercase, not entirely uppercase, no underscore, uppercase first
    character), [is_CamelCase] returns false; the three other examples
    return false as the specification says. *)
Theorem is_CamelCase_FooBar :
  is_CamelCase (lit "FooBar") = Ok false
  /\ Spec.isUpperCamelCase (lit "FooBar") = true
  /\ is_CamelCase (lit "foobar") = Ok false
  /\ is_CamelCase (lit "FOOBAR") = Ok false
  /\ is_CamelCase (lit "Foo_Bar") = Ok false.
Proof. repeat split; vm_compute; reflexivity. Qed.

(** what the code accepts: names with an uppercase character, and with an
    underscore when longer than 25 *)
Lemma is_snake_case_true_iff (s : str) :
  is_snake_case s = true
  <-> s <> lower s /\ (length s <= 25 \/ contains (lit "_") s = true).
Proof.
  unfold is_snake_case.
  destruct (str_eqb s (lower s)) eqn:El; cbn [negb].
  - apply str_eqb_eq in El. split; [discriminate | intros [H _]; tauto].
  - assert (s <> lower s) as Hne.
    { intros H. apply str_eqb_eq in H. congruence. }
    destruct (25 <? length s) eqn:E25.
    + apply Nat.ltb_lt in E25.
      destruct (contains (lit "_") s).
      * split; auto.
      * split; [discriminate|].
        intros [_ [H|H]]; [lia | discriminate H].
    + apply Nat.ltb_ge in E25. split; auto.
Qed.

(** C8. On ["abc"], which the specified predicate accepts (entirely
    lowercase, length at most 25), [is_snake_case] returns false; so it
    does on 13 copies of ["a_"], which the specified predicate accepts
    too; on 26 copies of ["a"] both are false. *)
Theorem is_snake_case_abc :
  is_snake_case (lit "abc") = false
  /\ Spec.isLongSnakeCase (lit "abc") = true
  /\ is_snake_case (lit "a_a_a_a_a_a_a_a_a_a_a_a_a_") = false
  /\ Spec.isLongSnakeCase (lit "a_a_a_a_a_a_a_a_a_a_a_a_a_") = true
  /\ is_snake_case (lit "aaaaaaaaaaaaaaaaaaaaaaaaaa") = false
  /\ Spec.isLongSnakeCase (lit "aaaaaaaaaaaaaaaaaaaaaaaaaa") = false.
Proof. repeat split; vm_compute; reflexivity. Qed.

End Naming.

(** ** The file-name check *)

Section FileName.

(** [check_file_path] never raises, and prints the CamelCase error exactly
    for the names [is_CamelCase] accepts, ["main.cpp"] apart *)
Lemma check_file_path_returns (file_path : str) :
  let filename := basename file_path in
  exists n outs,
    returns (check_file_path file_path) n outs
    /\ errors_of FileNameNotCamelCase outs =
         match is_CamelCase filename with
         | Ok true =>
             if str_eqb filename (lit "main.cpp") then []
             else [Error filename None FileNameNotCamelCase]
         | _ => []
         end.
Proof.
  intros filename. unfold check_file_path. fold filename.
  destruct (is_CamelCase_total filename) as [c Hc]. rewrite Hc.
  do 2 eexists. split; [returns_step|].
  unfold errors_of. rewrite filter_app.
  destruct (str_eqb filename (lit "main.cpp")), c; simpl;
    match goal with |- context [if ?b then _ else _] => destruct b end;
    reflexivity.
Qed.

(** C2. For ["foobar.cpp"], whose basename is not ["main.cpp"] and fails
    the specified CamelCase predicate, the file-name check prints nothing
    and counts no violation. *)
Theorem check_file_path_foobar :
  basename (lit "src/foobar.cpp") = lit "foobar.cpp"
  /\ Spec.isUpperCamelCase (lit "foobar.cpp") = false
  /\ run (check_file_path (lit "src/foobar.cpp")) = (Ok 0, []).
Proof. repeat split; vm_compute; reflexivity. Qed.

End FileName.

(** ** The line rules *)

Section LineRules.

Variable filename : str.
Variable disable_line_length_checks : bool.

Lemma filter_report {X} (f : X -> bool) (b : bool) (o : X) :
  filter f (if b then [o] else []) = if f o then (if b then [o] else []) else [].
Proof. destruct b; simpl; destruct (f o); reflexivity. Qed.

(** rewriting the error lines of one rule out of the printed outputs *)
Ltac errors_of_outputs :=
  unfold errors_of;
  repeat rewrite filter_app;
  repeat rewrite filter_report;
  cbn [filter is_error_of Rule_eqb app];
  repeat rewrite app_nil_r.

(** When the member-naming rule can be evaluated on a line, the line is
    checked to its end: the semicolon rule prints once on a Kotlin or Swift
    line whose last character is [";"] and not otherwise, and the
    member-naming rule prints once when its condition holds. *)
Lemma check_line_returns (file_type : FileType) (i : nat) (line : str)
    (error_count : nat) (m : bool) :
  member_uppercase line = Ok m ->
  exists n outs,
    returns (check_line filename file_type disable_line_length_checks
                        i line error_count) n outs
    /\ errors_of LineEndsSemicolon outs =
         (if (FileType_eqb file_type KOTLIN || FileType_eqb file_type SWIFT)
             && endswith (lit ";") line
          then [Error filename (Some (i + 1)) LineEndsSemicolon] else [])
    /\ errors_of MemberUppercase outs =
         (if m then [Error filename (Some (i + 1)) MemberUppercase] else []).
Proof.
  intros Hm. unfold check_line, is_type. cbv zeta. rewrite Hm.
  destruct file_type; cbn [FileType_eqb orb andb];
    (do 2 eexists; split; [returns_step|]);
    split; errors_of_outputs; reflexivity.
Qed.

(** When it cannot, the line raises before any of the later rules. *)
Lemma check_line_raises (file_type : FileType) (i : nat) (line : str)
    (error_count : nat) (e : exn) :
  member_uppercase line = Raise e ->
  exists outs,
    raises (check_line filename file_type disable_line_length_checks
                       i line error_count) e outs
    /\ errors_of LineEndsSemicolon outs = []
    /\ errors_of MemberUppercase outs = [].
Proof.
  intros Hm. unfold check_line. cbv zeta. rewrite Hm.
  eexists. split.
  - eapply raises_bind_r; [returns_step|]. cbv beta.
    eapply raises_bind_r; [returns_step|]. cbv beta.
    eapply raises_bind_r; [returns_step|]. cbv beta.
    apply raises_bind_l. apply raises_lift.
  - split; errors_of_outputs; reflexivity.
Qed.

End LineRules.

(** ** Searching *)

Section Searching.

Variable sub : str.

Lemma find_Some_0 (s : str) : find sub s = Some 0 -> startswith sub s = true.
Proof.
  destruct s as [|c t]; simpl.
  - destruct (startswith sub []); [reflexivity | discriminate].
  - destruct (startswith sub (c :: t)); [reflexivity|].
    destruct (find sub t); discriminate.
Qed.

Lemma find_cons (c : ascii) (t : str) :
  find sub (c :: t) =
  if startswith sub (c :: t) then Some 0 else option_map S (find sub t).
Proof. reflexivity. Qed.

(** [find] returns a position where [sub] occurs, and it is the first *)
Lemma find_Some (s : str) (i : nat) :
  find sub s = Some i ->
  startswith sub (skipn i s) = true
  /\ i <= length s
  /\ forall j, j < i -> startswith sub (skipn j s) = false.
Proof.
  revert i; induction s as [|c t IH]; intros i.
  - simpl. destruct (startswith sub []) eqn:E; [|discriminate].
    intros [= <-]. repeat split; auto. intros j Hj; lia.
  - rewrite find_cons. destruct (startswith sub (c :: t)) eqn:E.
    + intros [= <-]. repeat split; auto; [simpl; lia | intros j Hj; lia].
    + destruct (find sub t) as [k|] eqn:Ek; [|discriminate].
      intros [= <-]. destruct (IH k eq_refl) as [H1 [H2 H3]].
      repeat split; [exact H1 | simpl; lia |].
      intros [|j] Hj; [exact E | apply H3; lia].
Qed.

Lemma find_None (s : str) (j : nat) :
  find sub s = None -> startswith sub (skipn j s) = false.
Proof.
  revert j; induction s as [|c t IH]; intros j.
  - simpl. destruct (startswith sub []) eqn:E; [discriminate|].
    intros _. destruct j; exact E.
  - rewrite find_cons. destruct (startswith sub (c :: t)) eqn:E;
      [discriminate|].
    destruct (find sub t) eqn:Ek; [discriminate|]. intros _.
    destruct j as [|j]; [exact E | apply IH; reflexivity].
Qed.

Lemma startswith_skipn_app (pre post : str) :
  startswith sub (skipn (length pre) (pre ++ sub ++ post)) = true.
Proof.
  rewrite skipn_app, Nat.sub_diag, skipn_all. simpl.
  apply startswith_app. exists post. reflexivity.
Qed.

(** [sub in s] is true exactly when [sub] occurs in [s] *)
Lemma contains_occurs (s : str) : contains sub s = true <-> occurs sub s.
Proof.
  unfold contains, occurs. destruct (find sub s) as [i|] eqn:E.
  - split; [intros _ | reflexivity].
    apply find_Some in E as [H _]. apply startswith_app in H as [post H].
    exists (firstn i s), post. rewrite <- H. symmetry. apply firstn_skipn.
  - split; [discriminate|]. intros [pre [post ->]].
    pose proof (find_None _ (length pre) E) as H.
    rewrite startswith_skipn_app in H. discriminate.
Qed.

(** the position [find] returns, as a decomposition of [s] with no
    occurrence further left *)
Lemma find_first (s : str) (i : nat) :
  find sub s = Some i ->
  exists post,
    s = firstn i s ++ sub ++ post
    /\ length (firstn i s) = i
    /\ forall pre' post', s = pre' ++ sub ++ post' -> i <= length pre'.
Proof.
  intros E. apply find_Some in E as [H1 [H2 H3]].
  apply startswith_app in H1 as [post H1]. exists post.
  split; [|split].
  - rewrite <- H1. symmetry. apply firstn_skipn.
  - apply firstn_length_le. exact H2.
  - intros pre' post' Hs.
    destruct (Nat.le_gt_cases i (length pre')) as [|Hlt]; [assumption|].
    specialize (H3 _ Hlt). rewrite Hs, startswith_skipn_app in H3.
    discriminate.
Qed.

End Searching.

Lemma count_single (c : ascii) (s : str) :
  count [c] s = count_occ ascii_dec s c.
Proof.
  unfold count. induction s as [|x t IH]; [reflexivity|].
  cbn [count_from startswith length Nat.sub count_occ].
  destruct (ascii_dec x c) as [->|Hne].
  - rewrite Ascii.eqb_refl. simpl. rewrite <- IH.
    destruct t; reflexivity.
  - destruct (Ascii.eqb c x) eqn:E.
    + apply Ascii.eqb_eq in E. congruence.
    + simpl. exact IH.
Qed.

(** ** The blank-line run *)

Section BlankRun.

Variable filename : str.

Lemma check_blank_run_found (file_str : str) (error_count i : nat) :
  find three_newlines file_str = Some i ->
  returns (check_blank_run filename file_str error_count) (error_count + 1)
    [Error filename (Some (newlines_in (firstn i file_str) + 1))
           ThreeNewlines].
Proof.
  intros E log.
  unfold check_blank_run, contains, str_index, bind, lift, report, print, ret.
  rewrite E. unfold count_upto, newlines_in. rewrite count_single.
  reflexivity.
Qed.

Lemma check_blank_run_absent (file_str : str) (error_count : nat) :
  find three_newlines file_str = None ->
  returns (check_blank_run filename file_str error_count) error_count [].
Proof.
  intros E log. unfold check_blank_run, contains, ret. rewrite E, app_nil_r.
  reflexivity.
Qed.

(** the blank-run rule never raises: [index] is called under the guard
    that makes it succeed *)
Lemma check_blank_run_returns (file_str : str) (error_count : nat) :
  exists n outs,
    returns (check_blank_run filename file_str error_count) n outs.
Proof.
  destruct (find three_newlines file_str) as [i|] eqn:E.
  - do 2 eexists. apply (check_blank_run_found _ _ _ E).
  - do 2 eexists. apply (check_blank_run_absent _ _ E).
Qed.

(** C6. When the content contains three consecutive newlines, the
    blank-run rule prints exactly one error, whose line number is the
    number of newlines before the first occurrence plus one; when it does
    not, the rule prints nothing. *)
Theorem check_blank_run_first (file_str : str) (error_count : nat) :
  (occurs three_newlines file_str ->
   exists pre post,
     file_str = pre ++ three_newlines ++ post
     /\ (forall pre' post',
           file_str = pre' ++ three_newlines ++ post' ->
           length pre <= length pre')
     /\ returns (check_blank_run filename file_str error_count)
                (error_count + 1)
                [Error filename (Some (newlines_in pre + 1)) ThreeNewlines])
  /\ (~ occurs three_newlines file_str ->
      returns (check_blank_run filename file_str error_count)
              error_count []).
Proof.
  split.
  - intros Hocc. apply contains_occurs in Hocc. unfold contains in Hocc.
    destruct (find three_newlines file_str) as [i|] eqn:E; [|discriminate].
    destruct (find_first _ _ _ E) as [post [Hs [Hlen Hfirst]]].
    exists (firstn i file_str), post. split; [exact Hs|]. split.
    + intros pre' post' H. rewrite Hlen. exact (Hfirst pre' post' H).
    + apply check_blank_run_found. exact E.
  - intros Hno. apply check_blank_run_absent.
    destruct (find three_newlines file_str) as [i|] eqn:E; [|reflexivity].
    exfalso. apply Hno. apply contains_occurs. unfold contains.
    rewrite E. reflexivity.
Qed.

End BlankRun.

(** the example of section 8: nine lines, then a run that starts on
    line 10 *)
Example check_blank_run_line_10 :
  let file_str :=
    concat (repeat (lit "a" ++ [nl]) 9) ++ lit "b" ++ three_newlines
    ++ lit "c" ++ [nl] in
  run (check_blank_run (lit "Foo.hpp") file_str 0)
  = (Ok 1, [Error (lit "Foo.hpp") (Some 10) ThreeNewlines]).
Proof. vm_compute. reflexivity. Qed.

Lemma check_blank_run_first_witness :
  let file_str := lit "a" ++ three_newlines ++ lit "b" in
  occurs three_newlines file_str
  /\ exists pre post,
       file_str = pre ++ three_newlines ++ post
       /\ (forall pre' post',
             file_str = pre' ++ three_newlines ++ post' ->
             length pre <= length pre')
       /\ returns (check_blank_run (lit "Foo.hpp") file_str 0) (0 + 1)
            [Error (lit "Foo.hpp") (Some (newlines_in pre + 1))
                   ThreeNewlines].
Proof.
  assert (occurs three_newlines (lit "a" ++ three_newlines ++ lit "b")) as H
    by (exists (lit "a"), (lit "b"); reflexivity).
  split; [exact H|].
  exact (proj1 (check_blank_run_first (lit "Foo.hpp") _ 0) H).
Defined.

(** ** The copyright header *)

Section Header.

Variable year : nat.

Lemma header_file_brief_banner (filename : str) :
  header_file_brief year filename = Spec.banner_header year filename.
Proof.
  unfold header_file_brief, copyright_lines, Spec.banner_header.
  repeat rewrite <- app_assoc. reflexivity.
Qed.

(** the block that compares the header prints one error, and two lines of
    text, exactly when the content does not start with the expected header *)
Lemma expect_header_returns (filename file_str expected : str)
    (error_count : nat) :
  returns (expect_header filename file_str expected error_count)
    (if startswith expected file_str then error_count else error_count + 1)
    (if startswith expected file_str then []
     else [Error filename None InvalidHeader;
           Text (lit "Expected: " ++ [nl] ++ expected);
           Text ([nl; nl] ++ lit "Actual: " ++ [nl]
                 ++ firstn (length expected) file_str)]).
Proof.
  intros log. unfold expect_header.
  destruct (startswith expected file_str); cbn [negb].
  - unfold ret. rewrite app_nil_r. reflexivity.
  - unfold bind, print, ret. repeat rewrite <- app_assoc. reflexivity.
Qed.

(** a header file goes through one comparison, with the file-and-brief
    header *)
Lemma check_header_HPP (filename file_str : str) (error_count : nat) log :
  check_header year HPP filename file_str error_count log
  = expect_header filename file_str (header_file_brief year filename)
                  error_count log.
Proof.
  unfold check_header. cbn [FileType_eqb]. rewrite andb_false_r.
  cbn [negb andb orb]. unfold bind, ret.
  destruct (expect_header _ _ _ _ log) as [[n|e] log']; reflexivity.
Qed.

Lemma firstn_set_char (n i : nat) (c : ascii) (s : str) :
  i < n -> i < length s -> nth_error (firstn n (set_char i c s)) i = Some c.
Proof.
  intros Hn Hs. rewrite nth_error_firstn.
  apply Nat.ltb_lt in Hn. rewrite Hn.
  unfold set_char. rewrite nth_error_app2; rewrite firstn_length_le; try lia.
  rewrite Nat.sub_diag. reflexivity.
Qed.

(** changing one character of a prefix that matched makes it differ *)
Lemma set_char_breaks_prefix (B s : str) (i : nat) (c : ascii) :
  firstn (length B) s = B -> i < length B -> nth_error B i <> Some c ->
  firstn (length B) (set_char i c s) <> B.
Proof.
  intros HB Hi Hc Heq. apply Hc. rewrite <- Heq at 1.
  apply firstn_set_char; [exact Hi|].
  rewrite <- HB in Hi. rewrite length_firstn in Hi. lia.
Qed.

(** C5. For a header file, with [B] the banner for the year and the file
    name: the header check prints nothing exactly when the first
    [length B] characters of the content are [B]; otherwise it prints one
    error; contents that agree on their first [length B] characters are
    checked alike; and changing one character within a matching prefix
    yields exactly one error. *)
Theorem check_header_prefix (file_path file_str : str) (error_count : nat) :
  get_file_type file_path = Ok HPP ->
  let filename := basename file_path in
  let B := Spec.banner_header year filename in
  let check s := check_header year HPP filename s error_count in
  (returns (check file_str) error_count []
   <-> firstn (length B) file_str = B)
  /\ (firstn (length B) file_str <> B ->
      exists outs,
        returns (check file_str) (error_count + 1) outs
        /\ filter is_error outs = [Error filename None InvalidHeader])
  /\ (forall file_str',
        firstn (length B) file_str' = firstn (length B) file_str ->
        forall log, check file_str' log = check file_str log)
  /\ (forall i c,
        firstn (length B) file_str = B ->
        i < length B -> nth_error B i <> Some c ->
        exists outs,
          returns (check (set_char i c file_str)) (error_count + 1) outs
          /\ filter is_error outs = [Error filename None InvalidHeader]).
Proof.
  intros _ filename B check.
  assert (forall s, firstn (length B) s <> B ->
            exists outs, returns (check s) (error_count + 1) outs
              /\ filter is_error outs = [Error filename None InvalidHeader])
    as Hbad.
  { intros s Hs. eexists. split.
    - intros log. unfold check. rewrite check_header_HPP.
      rewrite (expect_header_returns _ _ _ _ log).
      rewrite header_file_brief_banner. fold B.
      destruct (startswith B s) eqn:E.
      + apply startswith_firstn in E. contradiction.
      + reflexivity.
    - reflexivity. }
  assert (forall s, firstn (length B) s = B ->
            returns (check s) error_count []) as Hgood.
  { intros s Hs log. unfold check. rewrite check_header_HPP.
    rewrite (expect_header_returns _ _ _ _ log).
    rewrite header_file_brief_banner. fold B.
    apply startswith_firstn in Hs. rewrite Hs. reflexivity. }
  split; [|split; [|split]].
  - split; [|apply Hgood].
    intros Hret.
    destruct (list_eq_dec ascii_dec (firstn (length B) file_str) B)
      as [|Hne]; [assumption|].
    destruct (Hbad _ Hne) as [outs [Hret' _]].
    destruct (returns_unique _ _ _ _ _ Hret Hret') as [Hn _]. lia.
  - apply Hbad.
  - intros file_str' Hsame log. unfold check.
    rewrite !check_header_HPP.
    rewrite (expect_header_returns _ _ _ _ log),
            (expect_header_returns _ _ _ _ log).
    rewrite header_file_brief_banner. fold B.
    assert (startswith B file_str' = startswith B file_str) as ->.
    { apply eq_iff_eq_true. rewrite !startswith_firstn, Hsame. tauto. }
    rewrite Hsame. reflexivity.
  - intros i c HB Hi Hc. apply Hbad.
    apply set_char_breaks_prefix; assumption.
Qed.

End Header.

(** ** Xml files *)

Section Xml.

Variable year : nat.

Lemma bind_ret_l {A B} (a : A) (k : A -> M B) log :
  bind (ret a) k log = k a log.
Proof. reflexivity. Qed.

Lemma bind_lift_l {A B} (a : A) (k : A -> M B) log :
  bind (lift (Ok a)) k log = k a log.
Proof. reflexivity. Qed.

Lemma bind_ext2 {A B} (m m' : M A) (k k' : A -> M B) log :
  m log = m' log -> (forall a log', k a log' = k' a log') ->
  bind m k log = bind m' k' log.
Proof.
  intros Hm Hk. unfold bind. rewrite Hm.
  destruct (m' log) as [[a|e] log']; auto.
Qed.

Lemma bind_ret_r {A} (m : M A) log : bind m ret log = m log.
Proof. unfold bind, ret. destruct (m log) as [[a|e] log']; reflexivity. Qed.

(** on an Xml file every gate is closed: a line goes through the ungated
    rules only *)
Lemma check_line_XML filename disable i line error_count log :
  check_line filename XML disable i line error_count log
  = check_line_universal filename disable i line error_count log.
Proof.
  unfold check_line, check_line_universal, is_type. cbv zeta.
  cbn [FileType_eqb orb].
  repeat first [rewrite bind_ret_l | apply bind_ext; intros ? ?].
  rewrite <- (bind_ret_r (report _ _ _)).
  apply bind_ext; intros ? ?. repeat rewrite bind_ret_l. reflexivity.
Qed.

Lemma check_lines_XML filename disable ls :
  forall i error_count log,
    check_lines filename XML disable i ls error_count log
    = check_lines_universal filename disable i ls error_count log.
Proof.
  induction ls as [|line rest IH]; intros i error_count log;
    [reflexivity|].
  cbn [check_lines check_lines_universal].
  unfold bind. rewrite check_line_XML.
  destruct (check_line_universal _ _ _ _ _ log) as [[n|e] log'];
    [apply IH | reflexivity].
Qed.

Lemma check_header_XML filename file_str error_count log :
  check_header year XML filename file_str error_count log
  = (Ok error_count, log).
Proof.
  unfold check_header. cbn [FileType_eqb]. rewrite andb_false_r.
  reflexivity.
Qed.

(** C10. For a file classified as Xml, the header stage prints nothing
    and leaves the count as it is, whatever the content; and the whole
    check is the file-name check, the ungated line rules, the
    trailing-newline rule and the blank-run rule, with the same output
    and the same result. *)
Theorem check_file_XML (file_path file_str : str) (disable : bool) :
  get_file_type file_path = Ok XML ->
  (forall error_count log,
     check_header year XML (basename file_path) file_str error_count log
     = (Ok error_count, log))
  /\ (forall log,
        check_file year file_path file_str disable log
        = check_file_ungated file_path file_str disable log).
Proof.
  intros Hxml. split; [intros; apply check_header_XML|].
  intros log. unfold check_file, check_file_ungated. rewrite Hxml.
  rewrite bind_lift_l. cbv zeta.
  apply bind_ext. intros n log1.
  apply bind_ext2; [apply check_lines_XML|]. intros ec log2.
  apply bind_ext. intros ec' log3.
  rewrite <- (bind_ret_r (check_blank_run _ _ _) log3).
  apply bind_ext. intros ec'' log4. apply check_header_XML.
Qed.

End Xml.

Lemma check_file_XML_witness :
  get_file_type (lit "res/layout.xml") = Ok XML
  /\ forall log,
       check_file 2024 (lit "res/layout.xml") (lit "<a/>" ++ [nl]) true log
       = check_file_ungated (lit "res/layout.xml") (lit "<a/>" ++ [nl])
                            true log.
Proof.
  split; [reflexivity|].
  exact (proj2 (check_file_XML 2024 (lit "res/layout.xml")
                  (lit "<a/>" ++ [nl]) true eq_refl)).
Defined.

Lemma check_header_prefix_witness :
  let file_str := Spec.banner_header 2024 (lit "Foo.hpp") ++ lit " x" in
  get_file_type (lit "inc/Foo.hpp") = Ok HPP
  /\ returns (check_header 2024 HPP (lit "Foo.hpp") file_str 0) 0 [].
Proof.
  split; [reflexivity|].
  apply (proj1 (check_header_prefix 2024 (lit "inc/Foo.hpp")
                  (Spec.banner_header 2024 (lit "Foo.hpp") ++ lit " x") 0
                  eq_refl)).
  reflexivity.
Defined.

(** ** Splitting *)

Section Splitting.

Variable sep : str.
Hypothesis sep_nonempty : sep <> [].

Lemma split_from_skip (k : nat) (cur s : str) :
  k <= length s -> split_from sep k cur s = split_from sep 0 cur (skipn k s).
Proof.
  revert k; induction s as [|c t IH]; intros k Hk.
  - simpl in Hk. replace k with 0 by lia. reflexivity.
  - destruct k as [|k]; [reflexivity|]. simpl in Hk.
    cbn [split_from skipn]. apply IH. lia.
Qed.

Lemma startswith_length (p s : str) :
  startswith p s = true -> length p <= length s.
Proof.
  intros H. apply startswith_app in H as [t ->]. rewrite length_app. lia.
Qed.

(** the first piece ends where [find] finds the separator, and the
    splitting goes on after the separator *)
Lemma split_from_find (s : str) :
  forall cur i,
    find sep s = Some i ->
    split_from sep 0 cur s
    = (rev cur ++ firstn i s)
        :: split_from sep 0 [] (skipn (i + length sep) s).
Proof.
  induction s as [|c t IH]; intros cur i.
  - simpl. destruct (startswith sep []) eqn:E; [|discriminate].
    apply startswith_nil_r in E. contradiction.
  - rewrite find_cons. cbn [split_from].
    destruct (startswith sep (c :: t)) eqn:E.
    + intros [= <-]. cbn [firstn]. rewrite app_nil_r. f_equal.
      apply startswith_length in E. cbn [length] in E.
      rewrite split_from_skip by lia.
      destruct sep as [|x sep']; [contradiction|].
      cbn [length Nat.add skipn Nat.sub]. rewrite Nat.sub_0_r. reflexivity.
    + destruct (find sep t) as [k|] eqn:Ek; [|discriminate].
      intros [= <-]. rewrite (IH (c :: cur) k eq_refl).
      cbn [rev firstn Nat.add skipn]. rewrite <- app_assoc. reflexivity.
Qed.

(** without separator there is one piece *)
Lemma split_from_none (s : str) :
  forall cur, find sep s = None -> split_from sep 0 cur s = [rev cur ++ s].
Proof.
  induction s as [|c t IH]; intros cur.
  - intros _. simpl. rewrite app_nil_r. reflexivity.
  - rewrite find_cons. cbn [split_from].
    destruct (startswith sep (c :: t)); [discriminate|].
    destruct (find sep t) eqn:Ek; [discriminate|]. intros _.
    rewrite (IH (c :: cur) eq_refl). cbn [rev]. rewrite <- app_assoc.
    reflexivity.
Qed.

(** the first piece of a splitting is the beginning of what is split *)
Lemma split_from_head (s : str) :
  forall cur, exists piece rest suffix,
    split_from sep 0 cur s = piece :: rest /\ rev cur ++ s = piece ++ suffix.
Proof.
  intros cur. destruct (find sep s) as [i|] eqn:E.
  - rewrite (split_from_find _ cur i E).
    exists (rev cur ++ firstn i s), (split_from sep 0 [] (skipn (i + length sep) s)), (skipn i s).
    split; [reflexivity|]. rewrite <- app_assoc, firstn_skipn. reflexivity.
  - rewrite (split_from_none _ cur E).
    exists (rev cur ++ s), [], []. rewrite app_nil_r. auto.
Qed.

End Splitting.

(** ** The member-naming rule *)

Section MemberRule.

Lemma has_member_uppercase_app (pre post : str) (c : ascii) :
  is_upper_char c = true ->
  Spec.has_member_uppercase (pre ++ lit "m_" ++ c :: post) = true.
Proof.
  intros Hc. induction pre as [|x pre IH].
  - cbn. rewrite Hc. reflexivity.
  - cbn [app Spec.has_member_uppercase]. rewrite IH. apply orb_true_r.
Qed.

(** what the rule looks at: the character after the first ["m_"] *)
Lemma member_uppercase_first (line : str) (i : nat) :
  find (lit "m_") line = Some i ->
  member_uppercase line
  = rbind (list_get (split_from (lit "m_") 0 [] (skipn (i + 2) line)) 0)
          (fun piece => rbind (str_get piece 0)
                              (fun c => Ok (isupper [c]))).
Proof.
  intros E. unfold member_uppercase, contains, split. rewrite E.
  rewrite (split_from_find (lit "m_") ltac:(discriminate) line [] i E).
  reflexivity.
Qed.

(** when the rule fires, some ["m_"] of the line is followed by an
    uppercase letter *)
Lemma member_uppercase_sound (line : str) :
  member_uppercase line = Ok true -> Spec.has_member_uppercase line = true.
Proof.
  unfold member_uppercase at 1. unfold contains.
  destruct (find (lit "m_") line) as [i|] eqn:E; [|discriminate].
  fold (contains (lit "m_") line).
  assert (contains (lit "m_") line = true) as Hc
    by (unfold contains; rewrite E; reflexivity).
  intros H. assert (member_uppercase line = Ok true) as H'.
  { unfold member_uppercase. rewrite Hc. exact H. }
  clear H. rewrite (member_uppercase_first _ _ E) in H'.
  destruct (find_first _ _ _ E) as [post [Hline _]].
  assert (skipn (i + 2) line = post) as Hskip.
  { rewrite Hline at 1. rewrite app_assoc, skipn_app.
    rewrite skipn_all2 by (rewrite length_app, length_firstn; simpl; lia).
    rewrite length_app, length_firstn. simpl.
    replace (i + 2 - (Nat.min i (length line) + 2)) with 0; [reflexivity|].
    apply find_Some in E. lia. }
  rewrite Hskip in H'.
  destruct (split_from_head (lit "m_") ltac:(discriminate) post [])
    as [piece [rest [suffix [Hsplit Hpost]]]].
  rewrite Hsplit in H'. cbn [list_get nth_error rbind] in H'.
  destruct piece as [|c piece]; [discriminate|].
  cbn [str_get nth_error rbind] in H'. rewrite isupper_single in H'.
  injection H' as H'. cbn [rev app] in Hpost.
  rewrite Hline, Hpost. cbn [app].
  apply has_member_uppercase_app. exact H'.
Qed.

(** C7. On the line ["int m_a; int m_B;"], where the second ["m_"] is
    followed by an uppercase letter, the rule does not fire (it looks at
    the character after the first ["m_"] only), and checking a C source
    file made of that line prints no member-naming error. *)
Theorem member_uppercase_misses_later :
  let line := lit "int m_a; int m_B;" ++ [nl] in
  Spec.has_member_uppercase line = true
  /\ member_uppercase line = Ok false
  /\ get_file_type (lit "src/Foo.cpp") = Ok CPP
  /\ lines line = [line]
  /\ fst (run (check_file 2024 (lit "src/Foo.cpp") line true)) = Ok 1
  /\ errors_of MemberUppercase
       (snd (run (check_file 2024 (lit "src/Foo.cpp") line true))) = [].
Proof. repeat split; vm_compute; reflexivity. Qed.

End MemberRule.

(** ** Exceptions of check_file *)

Section Raising.

(** C3. The C source file whose only line is ["int m_m_count;"] is of a
    recognized kind, and checking it raises [IndexError] instead of
    returning a count: the piece after the first ["m_"] is empty and its
    first character is asked for.  A last line that ends in ["m_"] does
    the same. *)
Theorem check_file_raises_IndexError (year : nat) :
  get_file_type (lit "src/Counter.cpp") = Ok CPP
  /\ split (lit "m_") (lit "int m_m_count;" ++ [nl])
     = [lit "int "; []; lit "count;" ++ [nl]]
  /\ run (check_file year (lit "src/Counter.cpp")
            (lit "int m_m_count;" ++ [nl]) true)
     = (Raise IndexError, [])
  /\ run (check_file year (lit "src/Counter.cpp")
            (lit "// members start with m_") true)
     = (Raise IndexError, []).
Proof. repeat split; vm_compute; reflexivity. Qed.

(** C4. In the Kotlin file whose only line is ["val m_m_total = 1;"],
    without a newline after it, the last character of the line is [";"],
    and the check raises [IndexError] in the member-naming rule before it
    reaches the semicolon rule: no semicolon error is printed.  In the
    Kotlin file made of the line ["val total = 1;"] and its newline, the
    line read keeps its newline, and no semicolon error is printed
    either. *)
Theorem semicolon_rule_not_reached (year : nat) :
  let last_line := lit "val m_m_total = 1;" in
  let full_line := lit "val total = 1;" ++ [nl] in
  get_file_type (lit "app/Main.kt") = Ok KOTLIN
  /\ lines last_line = [last_line]
  /\ endswith (lit ";") last_line = true
  /\ run (check_file year (lit "app/Main.kt") last_line true)
     = (Raise IndexError, [])
  /\ lines full_line = [full_line]
  /\ errors_of LineEndsSemicolon
       (snd (run (check_file 2024 (lit "app/Main.kt") full_line true))) = [].
Proof. repeat split; vm_compute; reflexivity. Qed.

End Raising.

(** ** From the stages to check_file *)

Section EndToEnd.

Variable year : nat.

Lemma bind_Ok_inv {A B} (m : M A) (k : A -> M B) log b log' :
  bind m k log = (Ok b, log') ->
  exists a log1, m log = (Ok a, log1) /\ k a log1 = (Ok b, log').
Proof.
  unfold bind. destruct (m log) as [[a|e] log1]; [|discriminate].
  intros H. exists a, log1. auto.
Qed.

(** a stage that prints no error of rule [r] leaves the errors of [r]
    of the log as they are *)
Lemma prints_only_errors_of {A} (r : Rule) (m : M A) log :
  prints_only (fun o => is_error_of r o = false) m ->
  errors_of r (snd (m log)) = errors_of r log.
Proof.
  intros H. destruct (H log) as [outs [-> Hall]].
  unfold errors_of. rewrite filter_app.
  replace (filter (is_error_of r) outs) with (@nil Output);
    [apply app_nil_r|].
  induction Hall as [|o outs Ho _ IH]; [reflexivity|].
  cbn [filter]. rewrite Ho. exact IH.
Qed.

Lemma returns_errors_of {A} (r : Rule) (m : M A) a outs log :
  returns m a outs ->
  errors_of r (snd (m log)) = errors_of r log ++ errors_of r outs.
Proof.
  intros H. rewrite H. cbn [snd]. unfold errors_of. apply filter_app.
Qed.

Lemma check_file_path_quiet (r : Rule) file_path :
  r = ThreeNewlines \/ r = InvalidHeader ->
  prints_only (fun o => is_error_of r o = false) (check_file_path file_path).
Proof.
  intros [-> | ->]; unfold check_file_path; cbv zeta; prints_only_step.
Qed.

Lemma check_line_quiet (r : Rule) filename file_type disable i line ec :
  r = ThreeNewlines \/ r = InvalidHeader ->
  prints_only (fun o => is_error_of r o = false)
              (check_line filename file_type disable i line ec).
Proof.
  intros [-> | ->]; unfold check_line; cbv zeta; prints_only_step.
Qed.

Lemma check_lines_quiet (r : Rule) filename file_type disable ls :
  r = ThreeNewlines \/ r = InvalidHeader ->
  forall i ec,
    prints_only (fun o => is_error_of r o = false)
                (check_lines filename file_type disable i ls ec).
Proof.
  intros Hr. induction ls as [|line rest IH]; intros i ec.
  - apply prints_only_ret.
  - cbn [check_lines]. apply prints_only_bind.
    + apply check_line_quiet. exact Hr.
    + intros ec'. apply IH.
Qed.

Lemma check_final_newline_quiet (r : Rule) filename file_str ec :
  r = ThreeNewlines \/ r = InvalidHeader ->
  prints_only (fun o => is_error_of r o = false)
              (check_final_newline filename file_str ec).
Proof.
  intros [-> | ->]; unfold check_final_newline; prints_only_step.
Qed.

Lemma check_blank_run_quiet filename file_str ec :
  prints_only (fun o => is_error_of InvalidHeader o = false)
              (check_blank_run filename file_str ec).
Proof. unfold check_blank_run; cbv zeta; prints_only_step. Qed.

Lemma check_header_quiet file_type filename file_str ec :
  prints_only (fun o => is_error_of ThreeNewlines o = false)
              (check_header year file_type filename file_str ec).
Proof.
  unfold check_header, expect_header; cbv zeta; prints_only_step.
Qed.

(** the error lines of rule [r] that a returning [check_file] has printed
    are those its own stage printed, for the two whole-file rules *)
Lemma check_file_stage_errors (r : Rule) file_path file_str disable n log :
  r = ThreeNewlines \/ r = InvalidHeader ->
  run (check_file year file_path file_str disable) = (Ok n, log) ->
  exists file_type ec1 ec2 log1 log2,
    get_file_type file_path = Ok file_type
    /\ errors_of r log1 = []
    /\ check_blank_run (basename file_path) file_str ec1 log1
       = (Ok ec2, log2)
    /\ check_header year file_type (basename file_path) file_str ec2 log2
       = (Ok n, log).
Proof.
  intros Hr. unfold run, check_file. intros H.
  apply bind_Ok_inv in H as [file_type [l0 [Hft H]]].
  unfold lift in Hft. injection Hft as Hft <-.
  apply bind_Ok_inv in H as [n1 [l1 [H1 H]]].
  apply bind_Ok_inv in H as [n2 [l2 [H2 H]]].
  apply bind_Ok_inv in H as [n3 [l3 [H3 H]]].
  apply bind_Ok_inv in H as [n4 [l4 [H4 H]]].
  exists file_type, n3, n4, l3, l4. repeat split; try assumption.
  pose proof (prints_only_errors_of r _ []
                (check_file_path_quiet r file_path Hr)) as E1.
  rewrite H1 in E1. cbn [snd] in E1.
  pose proof (prints_only_errors_of r _ l1
                (check_lines_quiet r (basename file_path) file_type disable
                   (lines file_str) Hr 0 (0 + n1))) as E2.
  rewrite H2 in E2. cbn [snd] in E2.
  pose proof (prints_only_errors_of r _ l2
                (check_final_newline_quiet r (basename file_path) file_str
                   n2 Hr)) as E3.
  rewrite H3 in E3. cbn [snd] in E3.
  rewrite E3, E2, E1. reflexivity.
Qed.

(** a returning [check_file] has printed the blank-run error that
    [check_blank_run] prints, and no other *)
Theorem check_file_blank_run file_path file_str disable n log :
  run (check_file year file_path file_str disable) = (Ok n, log) ->
  errors_of ThreeNewlines log =
  match find three_newlines file_str with
  | Some i =>
      [Error (basename file_path)
             (Some (newlines_in (firstn i file_str) + 1)) ThreeNewlines]
  | None => []
  end.
Proof.
  intros H.
  destruct (check_file_stage_errors ThreeNewlines _ _ _ _ _
              (or_introl eq_refl) H)
    as [ft [ec1 [ec2 [l1 [l2 [_ [E1 [Hb Hh]]]]]]]].
  pose proof (prints_only_errors_of ThreeNewlines _ l2
                (check_header_quiet ft (basename file_path) file_str ec2))
    as E. rewrite Hh in E. cbn [snd] in E. rewrite E.
  destruct (find three_newlines file_str) as [i|] eqn:Ef.
  - pose proof (returns_errors_of ThreeNewlines _ _ _ l1
                  (check_blank_run_found (basename file_path) file_str
                     ec1 i Ef)) as Eb.
    rewrite Hb in Eb. cbn [snd] in Eb. rewrite Eb, E1. reflexivity.
  - pose proof (returns_errors_of ThreeNewlines _ _ _ l1
                  (check_blank_run_absent (basename file_path) file_str
                     ec1 Ef)) as Eb.
    rewrite Hb in Eb. cbn [snd] in Eb. rewrite Eb, E1. reflexivity.
Qed.

(** a returning [check_file] on a header file has printed the header
    error exactly when the content does not start with the banner *)
Theorem check_file_header_HPP file_path file_str disable n log :
  get_file_type file_path = Ok HPP ->
  run (check_file year file_path file_str disable) = (Ok n, log) ->
  errors_of InvalidHeader log =
  if startswith (Spec.banner_header year (basename file_path)) file_str
  then [] else [Error (basename file_path) None InvalidHeader].
Proof.
  intros Hhpp H.
  destruct (check_file_stage_errors InvalidHeader _ _ _ _ _
              (or_intror eq_refl) H)
    as [ft [ec1 [ec2 [l1 [l2 [Hft [E1 [Hb Hh]]]]]]]].
  rewrite Hhpp in Hft. injection Hft as <-.
  pose proof (prints_only_errors_of InvalidHeader _ l1
                (check_blank_run_quiet (basename file_path) file_str ec1))
    as Eb. rewrite Hb in Eb. cbn [snd] in Eb.
  rewrite check_header_HPP in Hh.
  pose proof (returns_errors_of InvalidHeader _ _ _ l2
                (expect_header_returns (basename file_path) file_str
                   (header_file_brief year (basename file_path)) ec2))
    as Eh. rewrite Hh in Eh. cbn [snd] in Eh.
  rewrite Eh, Eb, E1, header_file_brief_banner.
  destruct (startswith (Spec.banner_header year (basename file_path))
              file_str);
    unfold errors_of; cbn [filter is_error_of Rule_eqb app]; reflexivity.
Qed.

End EndToEnd.

(** ** When check_file returns *)

Section Returning.

Variable year : nat.

Lemma member_uppercase_raises (line : str) (e : exn) :
  member_uppercase line = Raise e -> e = IndexError.
Proof.
  unfold member_uppercase, list_get, str_get.
  destruct (contains (lit "m_") line); [|discriminate].
  destruct (nth_error (split (lit "m_") line) 1) as [piece|];
    cbn [rbind]; [|congruence].
  destruct (nth_error piece 0); cbn [rbind]; congruence.
Qed.

Lemma member_rule_defined_dec (line : str) :
  member_rule_defined line \/ member_uppercase line = Raise IndexError.
Proof.
  destruct (member_uppercase line) as [m|e] eqn:E.
  - left. exists m. exact E.
  - right. rewrite (member_uppercase_raises _ _ E). reflexivity.
Qed.

Lemma check_lines_returns filename file_type disable (ls : list str) :
  Forall member_rule_defined ls ->
  forall i error_count,
    exists n outs,
      returns (check_lines filename file_type disable i ls error_count)
              n outs.
Proof.
  induction 1 as [|line rest [m Hm] _ IH]; intros i error_count.
  - do 2 eexists. apply returns_ret.
  - destruct (check_line_returns filename disable file_type i line
                error_count m Hm) as [n1 [o1 [H1 _]]].
    destruct (IH (S i) n1) as [n2 [o2 H2]].
    exists n2, (o1 ++ o2). cbn [check_lines].
    eapply returns_bind; eassumption.
Qed.

Lemma check_lines_raises filename file_type disable (ls : list str) :
  Exists (fun line => member_uppercase line = Raise IndexError) ls ->
  forall i error_count,
    exists outs,
      raises (check_lines filename file_type disable i ls error_count)
             IndexError outs.
Proof.
  induction ls as [|line rest IH]; intros Hex i error_count.
  - inversion Hex.
  - cbn [check_lines].
    destruct (member_uppercase line) as [m|e] eqn:Hm.
    + destruct (check_line_returns filename disable file_type i line
                  error_count m Hm) as [n1 [o1 [H1 _]]].
      assert (Exists (fun l => member_uppercase l = Raise IndexError) rest)
        as Hrest.
      { inversion Hex as [? ? H|]; [congruence | assumption]. }
      destruct (IH Hrest (S i) n1) as [o2 H2].
      exists (o1 ++ o2). eapply raises_bind_r; eassumption.
    + pose proof (member_uppercase_raises _ _ Hm) as ->.
      destruct (check_line_raises filename disable file_type i line
                  error_count IndexError Hm) as [o1 [H1 _]].
      exists o1. apply raises_bind_l. exact H1.
Qed.

Lemma check_header_returns file_type filename file_str error_count :
  exists n outs,
    returns (check_header year file_type filename file_str error_count)
            n outs.
Proof.
  unfold check_header. cbv zeta. do 2 eexists.
  repeat first
    [ apply expect_header_returns
    | apply returns_ret
    | eapply returns_bind; [|cbv beta]
    | eapply returns_if ].
Qed.

(** For a path of a recognized kind, [check_file] returns a count when the
    member-naming rule can be evaluated on every line of the content, and
    raises [IndexError] when it cannot on some line. *)
Theorem check_file_returns_or_raises file_path file_str disable file_type :
  get_file_type file_path = Ok file_type ->
  (Forall member_rule_defined (lines file_str) ->
   exists n outs,
     returns (check_file year file_path file_str disable) n outs)
  /\ (Exists (fun line => member_uppercase line = Raise IndexError)
             (lines file_str) ->
      exists outs,
        raises (check_file year file_path file_str disable) IndexError outs).
Proof.
  intros Hft. unfold check_file. rewrite Hft.
  destruct (check_file_path_returns file_path) as [n1 [o1 [H1 _]]].
  split.
  - intros Hall.
    destruct (check_lines_returns (basename file_path) file_type disable
                _ Hall 0 (0 + n1)) as [n2 [o2 H2]].
    destruct (check_blank_run_returns (basename file_path) file_str
                (n2 + (if no_final_newline file_str then 1 else 0)))
      as [n4 [o4 H4]].
    destruct (check_header_returns file_type (basename file_path) file_str
                n4) as [n5 [o5 H5]].
    do 2 eexists.
    eapply returns_bind; [apply returns_lift|]. cbv beta zeta.
    eapply returns_bind; [exact H1|]. cbv beta.
    eapply returns_bind; [exact H2|]. cbv beta.
    eapply returns_bind; [apply returns_report|]. cbv beta.
    eapply returns_bind; [exact H4|]. exact H5.
  - intros Hex.
    destruct (check_lines_raises (basename file_path) file_type disable
                _ Hex 0 (0 + n1)) as [o2 H2].
    eexists.
    eapply raises_bind_r; [apply returns_lift|]. cbv beta zeta.
    eapply raises_bind_r; [exact H1|]. cbv beta.
    apply raises_bind_l. exact H2.
Qed.

End Returning.

(** ** The count and the error lines *)

Section Counting.

Lemma counts_ret (error_count : nat) : counts_from error_count (ret error_count).
Proof.
  intros log n log' [= <- <-]. exists []. rewrite app_nil_r. simpl.
  split; [reflexivity | lia].
Qed.

Lemma counts_report (cond : bool) (o : Output) (error_count : nat) :
  is_error o = true -> counts_from error_count (report cond o error_count).
Proof.
  intros Ho log n log'. rewrite (returns_report cond o error_count log).
  intros [= <- <-]. eexists. split; [reflexivity|].
  destruct cond; cbn [filter]; [rewrite Ho|]; reflexivity.
Qed.

Lemma counts_bind (error_count : nat) (m : M nat) (k : nat -> M nat) :
  counts_from error_count m ->
  (forall error_count', counts_from error_count' (k error_count')) ->
  counts_from error_count (bind m k).
Proof.
  intros Hm Hk log n log' H.
  apply bind_Ok_inv in H as [n1 [log1 [H1 H2]]].
  apply Hm in H1 as [o1 [-> ->]]. apply Hk in H2 as [o2 [-> ->]].
  exists (o1 ++ o2). rewrite app_assoc, filter_app, length_app.
  split; [reflexivity | lia].
Qed.

Lemma counts_bind_lift {A} (error_count : nat) (r : result A)
    (k : A -> M nat) :
  (forall a, counts_from error_count (k a)) ->
  counts_from error_count (bind (lift r) k).
Proof.
  intros Hk log n log' H.
  apply bind_Ok_inv in H as [a [log1 [H1 H2]]].
  unfold lift in H1. injection H1 as _ <-. exact (Hk a _ _ _ H2).
Qed.

Lemma counts_if (error_count : nat) (c : bool) (m1 m2 : M nat) :
  counts_from error_count m1 -> counts_from error_count m2 ->
  counts_from error_count (if c then m1 else m2).
Proof. destruct c; auto. Qed.

(** the steps that build a [counts_from] fact along the code *)
Ltac counts_step :=
  first
    [ apply counts_ret
    | apply counts_report; reflexivity
    | apply counts_bind_lift; intro; counts_step
    | apply counts_bind; [counts_step | intro; counts_step]
    | apply counts_if; counts_step ].

Lemma check_file_path_counts (file_path : str) :
  counts_from 0 (check_file_path file_path).
Proof. unfold check_file_path. cbv zeta. counts_step. Qed.

Lemma check_line_counts filename file_type disable i line error_count :
  counts_from error_count
              (check_line filename file_type disable i line error_count).
Proof. unfold check_line. cbv zeta. counts_step. Qed.

Lemma check_lines_counts filename file_type disable (ls : list str) :
  forall i error_count,
    counts_from error_count
                (check_lines filename file_type disable i ls error_count).
Proof.
  induction ls as [|line rest IH]; intros i error_count.
  - apply counts_ret.
  - cbn [check_lines]. apply counts_bind.
    + apply check_line_counts.
    + intros ec. apply IH.
Qed.

Lemma check_blank_run_counts filename file_str error_count :
  counts_from error_count (check_blank_run filename file_str error_count).
Proof. unfold check_blank_run. cbv zeta. counts_step. Qed.

Lemma expect_header_counts filename file_str expected error_count :
  counts_from error_count
              (expect_header filename file_str expected error_count).
Proof.
  intros log n log'.
  rewrite (expect_header_returns filename file_str expected error_count log).
  intros [= <- <-]. eexists. split; [reflexivity|].
  destruct (startswith expected file_str); cbn; lia.
Qed.

Lemma check_header_counts year file_type filename file_str error_count :
  counts_from error_count
              (check_header year file_type filename file_str error_count).
Proof.
  unfold check_header. cbv zeta.
  repeat first
    [ apply expect_header_counts
    | apply counts_ret
    | apply counts_if
    | apply counts_bind; [|intro] ].
Qed.

Lemma check_file_counts year file_path file_str disable :
  counts_from 0 (check_file year file_path file_str disable).
Proof.
  unfold check_file. cbv zeta. apply counts_bind_lift. intros file_type.
  apply counts_bind; [apply check_file_path_counts|]. intros n1.
  change (0 + n1) with n1.
  apply counts_bind; [apply check_lines_counts|]. intros n2.
  apply counts_bind;
    [unfold check_final_newline; apply counts_report; reflexivity|].
  intros n3.
  apply counts_bind; [apply check_blank_run_counts|]. intros n4.
  apply check_header_counts.
Qed.

(** The count [check_file] returns is the number of error lines it has
    printed, for every path, content and year. *)
Theorem check_file_counts_errors year file_path file_str disable n log :
  run (check_file year file_path file_str disable) = (Ok n, log) ->
  n = length (filter is_error log).
Proof.
  intros Hrun.
  destruct (check_file_counts year file_path file_str disable [] n log Hrun)
    as [outs [-> ->]].
  reflexivity.
Qed.

End Counting.

Lemma check_file_counts_errors_witness :
  run (check_file 2024 (lit "app/Main.kt") (lit "val total = 1 ;" ++ [nl])
                  true)
  = (Ok 2, snd (run (check_file 2024 (lit "app/Main.kt")
                       (lit "val total = 1 ;" ++ [nl]) true)))
  /\ 2 = length (filter is_error
                   (snd (run (check_file 2024 (lit "app/Main.kt")
                                (lit "val total = 1 ;" ++ [nl]) true)))).
Proof.
  assert (run (check_file 2024 (lit "app/Main.kt")
                 (lit "val total = 1 ;" ++ [nl]) true)
          = (Ok 2, snd (run (check_file 2024 (lit "app/Main.kt")
                               (lit "val total = 1 ;" ++ [nl]) true)))) as H
    by (vm_compute; reflexivity).
  split; [exact H|].
  exact (check_file_counts_errors 2024 _ _ _ _ _ H).
Defined.

(** ** The main block *)

Section Main.

Variable os_walk : str -> list (str * list str).
Variable year : nat.
Variable isdir : str -> bool.
Variable read : str -> str.

Lemma lines_defined_or_not (ls : list str) :
  Forall member_rule_defined ls
  \/ Exists (fun line => member_uppercase line = Raise IndexError) ls.
Proof.
  induction ls as [|line rest [IH|IH]].
  - left. constructor.
  - destruct (member_rule_defined_dec line) as [H|H].
    + left. constructor; assumption.
    + right. apply Exists_cons_hd. exact H.
  - right. apply Exists_cons_tl. exact IH.
Qed.

(** what [check_file] returns or raises, and what it prints, does not
    depend on what was printed before *)
Lemma check_file_frame file_path file_str disable :
  exists r outs, forall log,
    check_file year file_path file_str disable log = (r, log ++ outs).
Proof.
  destruct (get_file_type file_path) as [file_type|e] eqn:Hft.
  - destruct (check_file_returns_or_raises year file_path file_str disable
                file_type Hft) as [Hret Hraise].
    destruct (lines_defined_or_not (lines file_str)) as [H|H].
    + destruct (Hret H) as [n [outs Hn]]. exists (Ok n), outs. exact Hn.
    + destruct (Hraise H) as [outs Hn]. exists (Raise IndexError), outs.
      exact Hn.
  - exists (Raise e), []. intros log. unfold check_file. rewrite Hft.
    rewrite app_nil_r. reflexivity.
Qed.

Lemma check_files_counts (files : list str) :
  forall error_count,
    counts_from error_count (check_files year read files error_count).
Proof.
  induction files as [|file rest IH]; intros error_count.
  - apply counts_ret.
  - cbn [check_files]. intros log n log' H.
    apply bind_Ok_inv in H as [n1 [log1 [H1 H2]]].
    apply check_file_counts in H1 as [o1 [-> ->]].
    apply IH in H2 as [o2 [-> ->]].
    exists (o1 ++ o2). rewrite app_assoc, filter_app, length_app.
    split; [reflexivity | lia].
Qed.

(** a file on which the check raises stops the whole run *)
Lemma check_files_raises (files : list str) :
  (exists file e,
     In file files
     /\ fst (run (check_file year file (read file) true)) = Raise e) ->
  forall error_count log,
    exists e, fst (check_files year read files error_count log) = Raise e.
Proof.
  induction files as [|file rest IH]; intros [bad [e [Hin Hbad]]] ec log.
  - destruct Hin.
  - cbn [check_files]. unfold bind.
    destruct (check_file_frame file (read file) true) as [r [outs Hf]].
    rewrite Hf. destruct r as [n|e'].
    + apply IH. exists bad, e. split; [|exact Hbad].
      destruct Hin as [<-|Hin]; [|exact Hin].
      unfold run in Hbad. rewrite Hf in Hbad. discriminate Hbad.
    + exists e'. reflexivity.
Qed.

(** When the run ends, its exit code is 0 if no error line was printed
    and 1 if some was: the exit code tells whether the log holds an
    error. *)
Theorem main_exit_code (argv : list str) (code : nat) (log : list Output) :
  run (main os_walk year isdir read argv) = (Ok code, log) ->
  (code = 0 /\ filter is_error log = [])
  \/ (code = 1 /\ filter is_error log <> []).
Proof.
  unfold run, main. cbv zeta. intros H.
  apply bind_Ok_inv in H as [n [log1 [H1 H2]]].
  apply check_files_counts in H1 as [outs [-> Hn]]. cbn [app] in *.
  destruct (0 <? n) eqn:E.
  - right. unfold bind, print, ret in H2. injection H2 as <- <-.
    split; [reflexivity|]. rewrite filter_app. cbn [filter is_error].
    rewrite app_nil_r. apply Nat.ltb_lt in E.
    intros Hnil. rewrite Hnil in Hn. simpl in Hn. lia.
  - left. unfold bind, print, ret in H2. injection H2 as <- <-.
    split; [reflexivity|]. rewrite filter_app. cbn [filter is_error].
    rewrite app_nil_r. apply Nat.ltb_ge in E.
    destruct (filter is_error outs); [reflexivity|]. simpl in Hn. lia.
Qed.

Lemma main_raises_on (argv : list str) (file : str) (e : exn) :
  In file (files_of_argv os_walk isdir argv) ->
  fst (run (check_file year file (read file) true)) = Raise e ->
  exists e', fst (run (main os_walk year isdir read argv)) = Raise e'.
Proof.
  intros Hin Hbad. unfold run, main. cbv zeta. unfold bind.
  destruct (check_files_raises (files_of_argv os_walk isdir argv)
              (ex_intro _ file (ex_intro _ e (conj Hin Hbad))) 0 [])
    as [e' He'].
  destruct (check_files year read _ 0 []) as [[n|e''] log1];
    cbn [fst] in He'; [discriminate|].
  exists e''. reflexivity.
Qed.


End Main.

Lemma main_exit_code_witness :
  let os_walk := fun _ : str => @nil (str * list str) in
  let isdir := fun _ : str => false in
  let read := fun _ : str => lit "val total = 1 ;" ++ [nl] in
  let argv := [lit "lint.py"; lit "app/Main.kt"] in
  exists log,
    run (main os_walk 2024 isdir read argv) = (Ok 1, log)
    /\ ((1 = 0 /\ filter is_error log = [])
        \/ (1 = 1 /\ filter is_error log <> [])).
Proof.
  intros os_walk isdir read argv.
  exists (snd (run (main os_walk 2024 isdir read argv))).
  assert (run (main os_walk 2024 isdir read argv)
          = (Ok 1, snd (run (main os_walk 2024 isdir read argv)))) as H
    by (vm_compute; reflexivity).
  split; [exact H|].
  exact (main_exit_code os_walk 2024 isdir read argv 1 _ H).
Defined.


(** ** File names that pass *)

Section FileNameCases.

(** The file-name check never raises and prints nothing, one error or two:
    the CamelCase error is never printed alone, since a name sent to it
    holds an underscore; and a name without space, underscore and dash
    passes, whatever its case. *)
Theorem check_file_path_cases (file_path : str) :
  let filename := basename file_path in
  exists n outs,
    returns (check_file_path file_path) n outs
    /\ n = length outs
    /\ (outs = []
        \/ outs = [Error filename None FileNameForbiddenChar]
        \/ outs = [Error filename None FileNameNotCamelCase;
                   Error filename None FileNameForbiddenChar])
    /\ (contains (lit " ") filename = false ->
        contains (lit "_") filename = false ->
        contains (lit "-") filename = false -> outs = []).
Proof.
  intros filename. unfold check_file_path. fold filename.
  destruct (is_CamelCase filename) as [c|e] eqn:Hc.
  2:{ destruct (is_CamelCase_total filename) as [b Hb]. congruence. }
  assert (c = true -> contains (lit "_") filename = true) as Hu.
  { intros ->. apply is_CamelCase_true_iff in Hc. tauto. }
  do 2 eexists. split; [returns_step|].
  destruct (str_eqb filename (lit "main.cpp")); cbn [negb];
    destruct c; cbn [app];
    try (rewrite (Hu eq_refl); cbn [orb]; rewrite orb_true_r; cbn [app];
         repeat split; auto; intros; discriminate);
    destruct (contains (lit " ") filename
              || contains (lit "_") filename
              || contains (lit "-") filename) eqn:E; cbn [app];
    repeat split; auto;
    intros H1 H2 H3; rewrite H1, H2, H3 in E; discriminate E.
Qed.

End FileNameCases.

Lemma check_file_path_cases_witness :
  contains (lit " ") (basename (lit "src/foobar.cpp")) = false
  /\ contains (lit "_") (basename (lit "src/foobar.cpp")) = false
  /\ contains (lit "-") (basename (lit "src/foobar.cpp")) = false
  /\ exists n outs,
       returns (check_file_path (lit "src/foobar.cpp")) n outs /\ outs = [].
Proof.
  repeat split; try reflexivity.
  destruct (check_file_path_cases (lit "src/foobar.cpp"))
    as [n [outs [H [_ [_ Hclean]]]]].
  exists n, outs. split; [exact H|].
  apply Hclean; reflexivity.
Defined.

(** ** What the member-naming rule reads *)

Section MemberClosedForm.

Lemma split_from_head_cur (sep : str) (s cur : str) :
  sep <> [] ->
  exists x rest, split_from sep 0 cur s = (rev cur ++ x) :: rest.
Proof.
  intros Hsep. destruct (find sep s) as [i|] eqn:E.
  - rewrite (split_from_find sep Hsep s cur i E). eauto.
  - rewrite (split_from_none sep s cur E). eauto.
Qed.

(** The member-naming rule reads one character, the one after the first
    ["m_"] of the line: without ["m_"] it is false; when the line ends
    there, or another ["m_"] follows at once, it raises [IndexError];
    otherwise it tells whether that character is an uppercase letter. *)
Theorem member_uppercase_first_occurrence (line : str) :
  member_uppercase line =
  match find (lit "m_") line with
  | None => Ok false
  | Some i =>
      match skipn (i + 2) line with
      | [] => Raise IndexError
      | c :: rest =>
          if startswith (lit "m_") (c :: rest) then Raise IndexError
          else Ok (is_upper_char c)
      end
  end.
Proof.
  destruct (find (lit "m_") line) as [i|] eqn:E.
  - rewrite (member_uppercase_first line i E).
    destruct (skipn (i + 2) line) as [|c rest]; [reflexivity|].
    cbn [split_from].
    destruct (startswith (lit "m_") (c :: rest)); [reflexivity|].
    destruct (split_from_head_cur (lit "m_") rest [c] ltac:(discriminate))
      as [x [tl ->]].
    cbn [rev app list_get str_get nth_error rbind].
    rewrite isupper_single. reflexivity.
  - unfold member_uppercase, contains. rewrite E. reflexivity.
Qed.

End MemberClosedForm.

(** ** More on the line rules *)

Section LineFacts.

Variable filename : str.

Lemma prints_only_report_false (P : Output -> Prop) o error_count :
  prints_only P (report false o error_count).
Proof. apply prints_only_ret. Qed.

Lemma prints_only_weaken {A} (P Q : Output -> Prop) (m : M A) :
  (forall o, P o -> Q o) -> prints_only P m -> prints_only Q m.
Proof.
  intros HPQ Hm log. destruct (Hm log) as [outs [E F]].
  exists outs. split; [exact E|]. eapply Forall_impl; eassumption.
Qed.

(** rewriting the error lines of one rule out of the printed outputs *)
Ltac errors_of_list :=
  unfold errors_of;
  repeat rewrite filter_app;
  repeat rewrite filter_report;
  cbn [filter is_error_of Rule_eqb app];
  repeat rewrite app_nil_r.

(** the rules before the member-naming rule are reported whether or not
    that rule then raises *)
Lemma check_line_early file_type disable i line error_count :
  exists res outs,
    (forall log,
       check_line filename file_type disable i line error_count log
       = (res, log ++ outs))
    /\ errors_of LineTooLong outs =
         (if negb disable && (100 <? length line)
          then [Error filename (Some (i + 1)) LineTooLong] else [])
    /\ errors_of TabFound outs =
         (if contains [tab] line
          then [Error filename (Some (i + 1)) TabFound] else [])
    /\ errors_of TrailingWhitespace outs =
         (if endswith (lit " ") line || endswith (lit " " ++ [nl]) line
             || endswith (lit " " ++ [cr]) line
          then [Error filename (Some (i + 1)) TrailingWhitespace] else []).
Proof.
  destruct (member_uppercase line) as [m|e] eqn:Hm.
  - unfold check_line, is_type. cbv zeta. rewrite Hm.
    destruct file_type; cbn [FileType_eqb orb andb];
      (do 2 eexists; split; [intros log; revert log; returns_step|]);
      repeat split; errors_of_list; reflexivity.
  - unfold check_line. cbv zeta. rewrite Hm.
    do 2 eexists. split.
    + intros log. revert log.
      eapply raises_bind_r; [returns_step|]. cbv beta.
      eapply raises_bind_r; [returns_step|]. cbv beta.
      eapply raises_bind_r; [returns_step|]. cbv beta.
      apply raises_bind_l. apply raises_lift.
    + repeat split; errors_of_list; reflexivity.
Qed.

Lemma endswith_terminated (body : str) :
  endswith (lit " ") (body ++ [nl]) = false
  /\ endswith (lit " " ++ [nl]) (body ++ [nl]) = endswith (lit " ") body
  /\ endswith (lit " " ++ [cr]) (body ++ [nl]) = false.
Proof.
  unfold endswith. rewrite rev_app_distr. cbn [rev app lit].
  repeat split; reflexivity.
Qed.

(** On a line read with its newline, the trailing-whitespace error is
    printed exactly when the text before the newline ends in a space; it
    is printed even when the member-naming rule then raises on the
    line. *)
Theorem trailing_whitespace_before_newline file_type disable i body
    error_count :
  exists res outs,
    (forall log,
       check_line filename file_type disable i (body ++ [nl]) error_count log
       = (res, log ++ outs))
    /\ errors_of TrailingWhitespace outs =
         (if endswith (lit " ") body
          then [Error filename (Some (i + 1)) TrailingWhitespace] else []).
Proof.
  destruct (check_line_early file_type disable i (body ++ [nl]) error_count)
    as [res [outs [H [_ [_ Ht]]]]].
  exists res, outs. split; [exact H|]. rewrite Ht.
  destruct (endswith_terminated body) as [-> [-> ->]].
  rewrite orb_false_r. reflexivity.
Qed.

(** The line-length rule counts the newline of the line: with the rule
    enabled, a line of more than 100 characters, its newline included, is
    reported, and no other. *)
Theorem line_length_counts_newline file_type i line error_count :
  exists res outs,
    (forall log,
       check_line filename file_type false i line error_count log
       = (res, log ++ outs))
    /\ (100 < length line ->
        errors_of LineTooLong outs
        = [Error filename (Some (i + 1)) LineTooLong])
    /\ (length line <= 100 -> errors_of LineTooLong outs = []).
Proof.
  destruct (check_line_early file_type false i line error_count)
    as [res [outs [H [Hl _]]]].
  exists res, outs. split; [exact H|]. rewrite Hl. cbn [negb andb].
  split; intros Hlen.
  - apply Nat.ltb_lt in Hlen. rewrite Hlen. reflexivity.
  - apply Nat.ltb_ge in Hlen. rewrite Hlen. reflexivity.
Qed.

(** each error printed for the line of index [i] carries the file name
    and the number [i + 1] *)
Lemma check_line_numbers file_type disable i line error_count :
  prints_only (line_error_in filename i (i + 1))
              (check_line filename file_type disable i line error_count).
Proof.
  unfold check_line. cbv zeta.
  repeat first
    [ apply prints_only_ret
    | apply prints_only_lift
    | apply prints_only_report; eexists _, _; split; [reflexivity | lia]
    | apply prints_only_bind; [|intro]
    | apply prints_only_if ].
Qed.

(** Every error printed while the lines are read carries the file name
    and the number, counted from 1, of one of the lines. *)
Theorem check_lines_numbers file_type disable (ls : list str) :
  forall i error_count,
    prints_only (line_error_in filename i (i + length ls))
                (check_lines filename file_type disable i ls error_count).
Proof.
  induction ls as [|line rest IH]; intros i error_count.
  - apply prints_only_ret.
  - cbn [check_lines length]. apply prints_only_bind.
    + eapply prints_only_weaken; [|apply check_line_numbers].
      intros o [k [r [-> Hk]]]. exists k, r. split; [reflexivity | lia].
    + intros ec. eapply prints_only_weaken; [|apply IH].
      intros o [k [r [-> Hk]]]. exists k, r. split; [reflexivity | lia].
Qed.

End LineFacts.

Lemma line_length_counts_newline_witness :
  let line := repeat "a"%char 100 ++ [nl] in
  100 < length line
  /\ exists res outs,
       (forall log,
          check_line (lit "Foo.cpp") CPP false 0 line 0 log
          = (res, log ++ outs))
       /\ errors_of LineTooLong outs
          = [Error (lit "Foo.cpp") (Some (0 + 1)) LineTooLong].
Proof.
  intros line.
  assert (100 < length line) as Hlen by (vm_compute; lia).
  split; [exact Hlen|].
  destruct (line_length_counts_newline (lit "Foo.cpp") CPP 0 line 0)
    as [res [outs [H [Hlong _]]]].
  exists res, outs. split; [exact H | exact (Hlong Hlen)].
Defined.

(** ** Lines reported twice *)

Section DoubleReports.

Variable filename : str.

Ltac errors_of_list :=
  unfold errors_of;
  repeat rewrite filter_app;
  repeat rewrite filter_report;
  cbn [filter is_error_of Rule_eqb app];
  repeat rewrite app_nil_r.







End DoubleReports.


(** ** The line-length rule is off in a run *)

Section LineLengthOff.

Let quiet (o : Output) : Prop := is_error_of LineTooLong o = false.

(** the steps for a computation that prints no line-length error *)
Ltac quiet_step :=
  repeat first
    [ apply prints_only_ret
    | apply prints_only_lift
    | apply prints_only_report_false
    | apply prints_only_report; reflexivity
    | apply prints_only_print; reflexivity
    | apply prints_only_bind; [|intro]
    | apply prints_only_if ].

Lemma check_lines_no_length filename file_type (ls : list str) :
  forall i error_count,
    prints_only quiet (check_lines filename file_type true i ls error_count).
Proof.
  induction ls as [|line rest IH]; intros i error_count.
  - apply prints_only_ret.
  - cbn [check_lines]. apply prints_only_bind; [|intros ec; apply IH].
    unfold check_line. cbv zeta. cbn [negb andb]. quiet_step.
Qed.

Lemma check_file_no_length year file_path file_str :
  prints_only quiet (check_file year file_path file_str true).
Proof.
  unfold check_file. cbv zeta.
  apply prints_only_bind; [apply prints_only_lift|]. intros file_type.
  apply prints_only_bind; [unfold check_file_path; cbv zeta; quiet_step|].
  intros n1.
  apply prints_only_bind; [apply check_lines_no_length|]. intros n2.
  apply prints_only_bind; [unfold check_final_newline; quiet_step|].
  intros n3.
  apply prints_only_bind; [unfold check_blank_run; cbv zeta; quiet_step|].
  intros n4. unfold check_header, expect_header. cbv zeta. quiet_step.
Qed.

Lemma check_files_no_length year read (files : list str) :
  forall error_count,
    prints_only quiet (check_files year read files error_count).
Proof.
  induction files as [|file rest IH]; intros error_count.
  - apply prints_only_ret.
  - cbn [check_files]. apply prints_only_bind;
      [apply check_file_no_length | intros n; apply IH].
Qed.

(** A run never prints the line-length error, whatever the files hold and
    whether it ends or raises: the main block calls [check_file] with the
    rule disabled. *)
Theorem main_no_line_length os_walk year isdir read (argv : list str) :
  errors_of LineTooLong (snd (run (main os_walk year isdir read argv))) = [].
Proof.
  assert (prints_only quiet (main os_walk year isdir read argv)) as H.
  { unfold main. cbv zeta.
    apply prints_only_bind; [apply check_files_no_length|]. intros n.
    quiet_step. }
  unfold run. rewrite (prints_only_errors_of LineTooLong _ [] H).
  reflexivity.
Qed.

End LineLengthOff.

(** ** Every header begins alike *)

Section HeaderFacts.

Variable year : nat.

Lemma startswith_trans (a b s : str) :
  startswith a b = true -> startswith b s = true -> startswith a s = true.
Proof.
  intros Hab Hbs. apply startswith_app in Hab as [t ->].
  apply startswith_app in Hbs as [u ->]. apply startswith_app.
  exists (t ++ u). symmetry. apply app_assoc.
Qed.

Lemma startswith_self_app (a t : str) : startswith a (a ++ t) = true.
Proof. apply startswith_app. exists t. reflexivity. Qed.

Lemma bind_ret_expect filename file_str expected error_count log
    (k : nat -> M nat) :
  (forall n log', k n log' = (Ok n, log')) ->
  bind (expect_header filename file_str expected error_count) k log
  = expect_header filename file_str expected error_count log.
Proof.
  intros Hk. unfold bind.
  destruct (expect_header _ _ _ _ log) as [[n|e] log']; auto.
Qed.

(** for every type but Xml the header stage is one comparison, with a
    header that begins with the three copyright lines *)
Lemma check_header_expected (file_type : FileType) (filename file_str : str) :
  file_type <> XML ->
  exists expected,
    startswith (copyright_lines year) expected = true
    /\ forall error_count log,
         check_header year file_type filename file_str error_count log
         = expect_header filename file_str expected error_count log.
Proof.
  intros Hx. unfold check_header. cbv zeta.
  destruct file_type; try contradiction; cbn [FileType_eqb orb].
  - (* CPP *)
    rewrite andb_true_r.
    destruct (startswith (lit "Test") filename); cbn [negb andb].
    + exists (header_tests year). split.
      * unfold header_tests. rewrite <- (app_nil_r (copyright_lines year)) at 2.
        apply startswith_self_app.
      * intros ec log. apply bind_ret_expect. reflexivity.
    + destruct (str_eqb filename (lit "main.cpp")).
      * exists (header_file_brief year filename). split.
        -- apply startswith_self_app.
        -- intros ec log. rewrite bind_ret_l. apply bind_ret_expect.
           reflexivity.
      * exists (header_see year
                  (firstn (length filename - 4) filename ++ lit ".hpp")).
        split.
        -- apply startswith_self_app.
        -- intros ec log. rewrite bind_ret_l. apply bind_ret_expect.
           reflexivity.
  - (* HPP *)
    rewrite andb_false_r. cbn [negb andb].
    exists (header_file_brief year filename). split.
    + apply startswith_self_app.
    + intros ec log. rewrite !bind_ret_l. apply bind_ret_expect.
      reflexivity.
  - (* JAVA *)
    rewrite andb_false_r. cbn [negb andb].
    exists (header_part_of year (lit "Android")). split.
    + apply startswith_self_app.
    + intros ec log. rewrite !bind_ret_l. apply bind_ret_expect.
      reflexivity.
  - (* KOTLIN *)
    rewrite andb_false_r. cbn [negb andb].
    exists (header_part_of year (lit "Android")). split.
    + apply startswith_self_app.
    + intros ec log. rewrite !bind_ret_l. apply bind_ret_expect.
      reflexivity.
  - (* SWIFT *)
    rewrite andb_false_r. cbn [negb andb].
    exists (header_part_of year (lit "iOS")). split.
    + apply startswith_self_app.
    + intros ec log. rewrite !bind_ret_l. reflexivity.
Qed.

Lemma check_header_cases (file_type : FileType)
    (filename file_str : str) (error_count : nat) :
  exists n outs,
    returns (check_header year file_type filename file_str error_count)
            n outs
    /\ ((n = error_count /\ outs = [])
        \/ (n = error_count + 1
            /\ filter is_error outs = [Error filename None InvalidHeader]))
    /\ (file_type <> XML -> outs = [] ->
        startswith (copyright_lines year) file_str = true).
Proof.
  destruct (FileType_eqb file_type XML) eqn:Ex.
  - destruct file_type; try discriminate Ex.
    exists error_count, []. split; [|split].
    + intros log. rewrite check_header_XML, app_nil_r. reflexivity.
    + left. auto.
    + intros H. contradiction.
  - assert (file_type <> XML) as Hx by (intros ->; discriminate Ex).
    destruct (check_header_expected file_type filename file_str Hx)
      as [expected [Hpre Hexp]].
    pose proof (expect_header_returns filename file_str expected error_count)
      as Hret.
    destruct (startswith expected file_str) eqn:Es.
    + exists error_count, []. split; [|split].
      * intros log. rewrite Hexp. apply Hret.
      * left. auto.
      * intros _ _. eapply startswith_trans; eassumption.
    + do 2 eexists. split; [|split].
      * intros log. rewrite Hexp. apply Hret.
      * right. split; reflexivity.
      * intros _ H. discriminate H.
Qed.

(** For every file type the header stage never raises and prints at most
    one error, adding at most one to the count; and when it prints
    nothing for a file that is not Xml, the content begins with the three
    copyright lines of the year. *)
Theorem check_header_at_most_one (file_type : FileType)
    (filename file_str : str) (error_count : nat) :
  exists n outs,
    returns (check_header year file_type filename file_str error_count)
            n outs
    /\ ((n = error_count /\ outs = [])
        \/ (n = error_count + 1
            /\ filter is_error outs = [Error filename None InvalidHeader]))
    /\ (file_type <> XML -> outs = [] ->
        startswith (copyright_lines year) file_str = true).
Proof. exact (check_header_cases file_type filename file_str error_count). Qed.

End HeaderFacts.

Lemma check_header_at_most_one_witness :
  let file_str := header_part_of 2024 (lit "Android") ++ lit "class A" in
  KOTLIN <> XML
  /\ exists n outs,
       returns (check_header 2024 KOTLIN (lit "A.kt") file_str 0) n outs
       /\ outs = []
       /\ startswith (copyright_lines 2024) file_str = true.
Proof.
  intros file_str. split; [discriminate|].
  destruct (check_header_at_most_one 2024 KOTLIN (lit "A.kt") file_str 0)
    as [n [outs [H [_ Hstart]]]].
  assert (outs = []) as Ho.
  { pose proof (H []) as H1. vm_compute in H1. injection H1 as _ H1.
    symmetry. exact H1. }
  exists n, outs. split; [exact H|]. split; [exact Ho|].
  apply Hstart; [discriminate | exact Ho].
Defined.

(** ** The files found and their types *)

Section Found.

Variable os_walk : str -> list (str * list str).

Lemma contains_single (c : ascii) (s : str) :
  contains [c] s = existsb (Ascii.eqb c) s.
Proof.
  unfold contains. induction s as [|x t IH]; [reflexivity|].
  rewrite find_cons. cbn [startswith existsb].
  destruct (Ascii.eqb c x); cbn [andb orb]; [reflexivity|].
  rewrite <- IH. destruct (find [c] t); reflexivity.
Qed.

Lemma take_until_absent (c : ascii) (s t : str) :
  existsb (Ascii.eqb c) s = false ->
  take_until c s = s /\ take_until c (s ++ c :: t) = s.
Proof.
  induction s as [|x s IH]; cbn [existsb app take_until].
  - intros _. rewrite Ascii.eqb_refl. auto.
  - intros H. apply orb_false_iff in H as [Hx Hs].
    rewrite Ascii.eqb_sym, Hx. destruct (IH Hs) as [-> ->]. auto.
Qed.

Lemma path_join_endswith (root filename : str) :
  endswith filename (path_join root filename) = true.
Proof.
  apply endswith_app. unfold path_join.
  destruct (startswith (lit "/") filename); [exists []; reflexivity|].
  destruct (str_eqb root [] || endswith (lit "/") root).
  - exists root. reflexivity.
  - exists (root ++ lit "/"). rewrite <- app_assoc. reflexivity.
Qed.

Lemma basename_no_slash (filename : str) :
  existsb (Ascii.eqb "/"%char) filename = false ->
  basename filename = filename.
Proof.
  intros Hno. unfold basename.
  assert (existsb (Ascii.eqb "/"%char) (rev filename) = false) as Hrev
    by (rewrite existsb_rev; exact Hno).
  destruct (take_until_absent "/"%char (rev filename) [] Hrev) as [-> _].
  apply rev_involutive.
Qed.

Lemma basename_after_slash (pre filename : str) :
  existsb (Ascii.eqb "/"%char) filename = false ->
  basename (pre ++ "/"%char :: filename) = filename.
Proof.
  intros Hno. unfold basename.
  assert (existsb (Ascii.eqb "/"%char) (rev filename) = false) as Hrev
    by (rewrite existsb_rev; exact Hno).
  rewrite rev_app_distr. cbn [rev]. rewrite <- app_assoc. cbn [app].
  destruct (take_until_absent "/"%char (rev filename) (rev pre) Hrev)
    as [_ ->].
  apply rev_involutive.
Qed.

(** The base name of a joined path is the file name that was joined, for
    a file name without ["/"], as the names [os.walk] gives are. *)
Theorem basename_path_join (root filename : str) :
  contains (lit "/") filename = false ->
  basename (path_join root filename) = filename.
Proof.
  intros Hno. change (lit "/") with ["/"%char] in Hno.
  rewrite contains_single in Hno.
  unfold path_join.
  destruct (startswith (lit "/") filename) eqn:Es.
  - destruct filename as [|c t]; [discriminate Es|].
    change (lit "/") with ["/"%char] in Es. cbn [startswith] in Es.
    apply andb_true_iff in Es as [Es _].
    cbn [existsb] in Hno. rewrite Es in Hno. discriminate Hno.
  - destruct (str_eqb root [] || endswith (lit "/") root) eqn:Er.
    + apply orb_true_iff in Er as [Er|Er].
      * apply str_eqb_eq in Er. subst root. cbn [app].
        apply basename_no_slash. exact Hno.
      * apply endswith_app in Er as [r' ->].
        rewrite <- app_assoc.
        change (lit "/" ++ filename) with ("/"%char :: filename).
        apply basename_after_slash. exact Hno.
    + change (lit "/" ++ filename) with ("/"%char :: filename).
      apply basename_after_slash. exact Hno.
Qed.

(** a path found ends in one of the extensions asked for *)
Lemma found_endswith folder exts subs (p : str) :
  In p (_find_files_by_extension os_walk folder exts subs) ->
  exists ext, In ext exts /\ endswith ext p = true.
Proof.
  unfold _find_files_by_extension. intros H.
  apply in_flat_map in H as [[root filenames] [_ H]].
  apply in_flat_map in H as [filename [_ H]].
  destruct (existsb (fun ext => endswith ext filename) exts) eqn:E;
    cbn [negb] in H; [|destruct H].
  apply existsb_exists in E as [ext [Hext Hends]].
  assert (p = path_join root filename) as ->.
  { destruct subs as [substrings|].
    - destruct (forallb _ substrings); [destruct H|].
      destruct H as [<-|[]]. reflexivity.
    - destruct H as [<-|[]]. reflexivity. }
  exists ext. split; [exact Hext|].
  apply endswith_app in Hends as [t ->].
  pose proof (path_join_endswith root (t ++ ext)) as Hj.
  apply endswith_app in Hj as [u ->]. apply endswith_app.
  exists (u ++ t). rewrite <- app_assoc. reflexivity.
Qed.

Lemma endswith_lower (e p : str) :
  lower e = e -> endswith e p = true -> endswith e (lower p) = true.
Proof.
  intros He H. apply endswith_app in H as [t ->]. apply endswith_app.
  exists (lower t). unfold lower in *. rewrite map_app, He. reflexivity.
Qed.

Lemma startswith_both (a b s : str) :
  startswith a s = true -> startswith b s = true ->
  startswith a b = true \/ startswith b a = true.
Proof.
  revert b s; induction a as [|x a IH]; intros b s Ha Hb.
  - left. reflexivity.
  - destruct b as [|y b]; [right; reflexivity|].
    destruct s as [|z s]; [discriminate Ha|].
    cbn [startswith] in *.
    apply andb_true_iff in Ha as [Hx Ha].
    apply andb_true_iff in Hb as [Hy Hb].
    apply Ascii.eqb_eq in Hx, Hy. subst z. subst y.
    rewrite Ascii.eqb_refl. cbn [andb]. eapply IH; eassumption.
Qed.

(** two endings of one string: one is an ending of the other *)
Lemma endswith_exclusive (a b s : str) :
  endswith a s = true -> endswith a b = false -> endswith b a = false ->
  endswith b s = false.
Proof.
  unfold endswith. intros Ha Hab Hba.
  destruct (startswith (rev b) (rev s)) eqn:Hb; [|reflexivity].
  destruct (startswith_both _ _ _ Ha Hb); congruence.
Qed.

(** deciding [get_file_type] from one ending of the lowercased path *)
Ltac classify_by H :=
  unfold get_file_type;
  repeat match goal with
         | |- context [endswith ?b (lower ?p)] =>
             first [ rewrite H
                   | rewrite (endswith_exclusive _ b _ H eq_refl eq_refl) ]
         end;
  reflexivity.

Lemma get_file_type_cpp p :
  endswith (lit ".cpp") (lower p) = true -> get_file_type p = Ok CPP.
Proof. intros H. classify_by H. Qed.

Lemma get_file_type_hpp p :
  endswith (lit ".hpp") (lower p) = true -> get_file_type p = Ok HPP.
Proof. intros H. classify_by H. Qed.

Lemma get_file_type_java p :
  endswith (lit ".java") (lower p) = true -> get_file_type p = Ok JAVA.
Proof. intros H. classify_by H. Qed.

Lemma get_file_type_kt p :
  endswith (lit ".kt") (lower p) = true -> get_file_type p = Ok KOTLIN.
Proof. intros H. classify_by H. Qed.

Lemma get_file_type_swift p :
  endswith (lit ".swift") (lower p) = true -> get_file_type p = Ok SWIFT.
Proof. intros H. classify_by H. Qed.

Lemma get_file_type_ktx p :
  endswith (lit ".ktx") (lower p) = true ->
  get_file_type p = Raise ValueError.
Proof. intros H. classify_by H. Qed.

(** The files found for C++ are all of type CPP or HPP and the files
    found for Swift of type SWIFT; the files found for Android are of type
    JAVA or KOTLIN, except those whose name ends in [".ktx"], which are
    found and on which [get_file_type] raises [ValueError]. *)
Theorem found_files_types (folder p : str) :
  (In p (find_cpp_files os_walk folder) ->
   get_file_type p = Ok CPP \/ get_file_type p = Ok HPP)
  /\ (In p (find_swift_files os_walk folder) -> get_file_type p = Ok SWIFT)
  /\ (In p (find_android_files os_walk folder) ->
      get_file_type p = Ok JAVA \/ get_file_type p = Ok KOTLIN
      \/ (endswith (lit ".ktx") p = true
          /\ get_file_type p = Raise ValueError)).
Proof.
  split; [|split]; intros H; apply found_endswith in H as [ext [Hext He]].
  - destruct Hext as [<-|[<-|[]]]; apply endswith_lower in He;
      try reflexivity.
    + left. apply get_file_type_cpp. exact He.
    + right. apply get_file_type_hpp. exact He.
  - destruct Hext as [<-|[]]. apply endswith_lower in He; [|reflexivity].
    apply get_file_type_swift. exact He.
  - destruct Hext as [<-|[<-|[<-|[]]]].
    + left. apply get_file_type_java. apply endswith_lower;
        [reflexivity | exact He].
    + right. left. apply get_file_type_kt. apply endswith_lower;
        [reflexivity | exact He].
    + right. right. split; [exact He|].
      apply get_file_type_ktx. apply endswith_lower;
        [reflexivity | exact He].
Qed.

(** A file whose name ends in [".ktx"], in a folder given to the run, is
    found and stops the run: the run raises and gives no exit code. *)
Theorem ktx_file_stops_run year isdir read (prog folder root filename : str)
    (filenames : list str) :
  isdir folder = true ->
  In (root, filenames) (os_walk folder) ->
  In filename filenames ->
  endswith (lit ".ktx") filename = true ->
  exists e,
    fst (run (main os_walk year isdir read [prog; folder])) = Raise e.
Proof.
  intros Hdir Hroot Hname Hktx.
  assert (In (path_join root filename) (find_android_files os_walk folder))
    as Hfound.
  { unfold find_android_files, _find_files_by_extension.
    apply in_flat_map. exists (root, filenames). split; [exact Hroot|].
    apply in_flat_map. exists filename. split; [exact Hname|].
    cbn [existsb]. rewrite Hktx, !orb_true_r. cbn [negb]. left. reflexivity. }
  assert (get_file_type (path_join root filename) = Raise ValueError) as Hft.
  { apply get_file_type_ktx. apply endswith_lower; [reflexivity|].
    apply endswith_app in Hktx as [t ->].
    pose proof (path_join_endswith root (t ++ lit ".ktx")) as Hj.
    apply endswith_app in Hj as [u ->]. apply endswith_app.
    exists (u ++ t). rewrite <- app_assoc. reflexivity. }
  apply (main_raises_on os_walk year isdir read [prog; folder]
           (path_join root filename) ValueError).
  - cbn [files_of_argv]. rewrite Hdir.
    apply in_or_app. right. apply in_or_app. left. exact Hfound.
  - unfold run, check_file. rewrite Hft. reflexivity.
Qed.

End Found.

Lemma basename_path_join_witness :
  contains (lit "/") (lit "Foo.cpp") = false
  /\ basename (path_join (lit "./buzzard/core") (lit "Foo.cpp"))
     = lit "Foo.cpp".
Proof.
  split; [reflexivity|].
  apply (basename_path_join (lit "./buzzard/core") (lit "Foo.cpp")).
  reflexivity.
Defined.

Lemma found_files_types_witness :
  let os_walk := fun _ : str => [(lit "./app", [lit "Anim.ktx"])] in
  In (lit "./app/Anim.ktx") (find_android_files os_walk (lit "."))
  /\ (get_file_type (lit "./app/Anim.ktx") = Ok JAVA
      \/ get_file_type (lit "./app/Anim.ktx") = Ok KOTLIN
      \/ (endswith (lit ".ktx") (lit "./app/Anim.ktx") = true
          /\ get_file_type (lit "./app/Anim.ktx") = Raise ValueError)).
Proof.
  intros os_walk.
  assert (In (lit "./app/Anim.ktx") (find_android_files os_walk (lit ".")))
    as H by (left; reflexivity).
  split; [exact H|].
  exact (proj2 (proj2 (found_files_types os_walk (lit ".")
                         (lit "./app/Anim.ktx"))) H).
Defined.

Lemma ktx_file_stops_run_witness :
  let os_walk := fun _ : str => [(lit "./app", [lit "Anim.ktx"])] in
  let isdir := fun _ : str => true in
  let read := fun _ : str => @nil ascii in
  isdir (lit ".") = true
  /\ In (lit "./app", [lit "Anim.ktx"]) (os_walk (lit "."))
  /\ In (lit "Anim.ktx") [lit "Anim.ktx"]
  /\ endswith (lit ".ktx") (lit "Anim.ktx") = true
  /\ exists e,
       fst (run (main os_walk 2024 isdir read [lit "lint.py"; lit "."]))
       = Raise e.
Proof.
  intros os_walk isdir read.
  assert (In (lit "./app", [lit "Anim.ktx"]) (os_walk (lit "."))) as H1
    by (left; reflexivity).
  assert (In (lit "Anim.ktx") [lit "Anim.ktx"]) as H2 by (left; reflexivity).
  repeat split; try exact H1; try exact H2.
  exact (ktx_file_stops_run os_walk 2024 isdir read (lit "lint.py") (lit ".")
           (lit "./app") (lit "Anim.ktx") [lit "Anim.ktx"]
           eq_refl H1 H2 eq_refl).
Defined.

(** ** The year of the header *)

Section HeaderYear.

Lemma str_of_nat_inj (a b : nat) : str_of_nat a = str_of_nat b -> a = b.
Proof.
  unfold str_of_nat, lit. intros H.
  apply (f_equal String.string_of_list_ascii) in H.
  rewrite !String.string_of_list_ascii_of_string in H.
  apply (f_equal DecimalString.NilEmpty.uint_of_string) in H.
  rewrite !DecimalString.NilEmpty.usu in H. injection H as H.
  apply DecimalNat.Unsigned.to_uint_inj. exact H.
Qed.

Lemma str_of_nat_digits (n : nat) :
  Forall (fun c => is_digit_char c = true) (str_of_nat n).
Proof.
  unfold str_of_nat, lit. induction (Nat.to_uint n); cbn;
    constructor; solve [reflexivity | assumption].
Qed.

Lemma digits_then_space (a b r r' : str) :
  Forall (fun c => is_digit_char c = true) a ->
  Forall (fun c => is_digit_char c = true) b ->
  a ++ " "%char :: r = b ++ " "%char :: r' -> a = b.
Proof.
  intros Ha. revert b. induction Ha as [|x a Hx Ha IH]; intros b Hb H.
  - destruct Hb as [|y b Hy Hb]; [reflexivity|].
    cbn [app] in H. injection H as <- _. discriminate Hy.
  - destruct Hb as [|y b Hy Hb].
    + cbn [app] in H. injection H as -> _. discriminate Hx.
    + cbn [app] in H. injection H as -> H. f_equal. apply (IH b Hb H).
Qed.

(** the copyright lines of two years begin no common text *)
Lemma copyright_lines_year (y y' : nat) (s : str) :
  startswith (copyright_lines y) s = true ->
  startswith (copyright_lines y') s = true -> y = y'.
Proof.
  intros H H'. apply startswith_app in H as [t ->].
  apply startswith_app in H' as [t' H'].
  unfold copyright_lines in H'. repeat rewrite <- app_assoc in H'.
  apply app_inv_head in H'. apply app_inv_head in H'.
  apply app_inv_head in H'.
  change (lit " Olypsys Technologies Ltd. All rights reserved.")
    with (" "%char :: lit "Olypsys Technologies Ltd. All rights reserved.")
    in H'.
  cbn [app] in H'.
  apply str_of_nat_inj.
  eapply digits_then_space; [apply str_of_nat_digits .. | exact H'].
Qed.

(** A file that is not Xml and passes the header stage in one year fails
    it in every other year: the stage prints nothing for at most one
    year. *)
Theorem header_passes_one_year (file_type : FileType)
    (filename file_str : str) (error_count y y' : nat) :
  file_type <> XML ->
  run (check_header y file_type filename file_str error_count)
  = (Ok error_count, []) ->
  run (check_header y' file_type filename file_str error_count)
  = (Ok error_count, []) ->
  y = y'.
Proof.
  intros Hx H H'.
  destruct (check_header_cases y file_type filename file_str
              error_count) as [n [outs [Hr [_ Hs]]]].
  destruct (check_header_cases y' file_type filename file_str
              error_count) as [n' [outs' [Hr' [_ Hs']]]].
  unfold run in H, H'. rewrite Hr in H. rewrite Hr' in H'.
  injection H as _ Ho. injection H' as _ Ho'. cbn [app] in Ho, Ho'.
  eapply copyright_lines_year; [apply Hs | apply Hs']; assumption.
Qed.

End HeaderYear.

Lemma header_passes_one_year_witness :
  let file_str := header_part_of 2024 (lit "iOS") ++ lit "import UIKit" in
  SWIFT <> XML
  /\ run (check_header 2024 SWIFT (lit "App.swift") file_str 0) = (Ok 0, [])
  /\ 2024 = 2024.
Proof.
  intros file_str.
  assert (SWIFT <> XML) as Hx by discriminate.
  assert (run (check_header 2024 SWIFT (lit "App.swift") file_str 0)
          = (Ok 0, [])) as H by (vm_compute; reflexivity).
  split; [exact Hx|]. split; [exact H|].
  exact (header_passes_one_year SWIFT (lit "App.swift") file_str 0
           2024 2024 Hx H H).
Defined.

(** ** Closing facts *)

Section Closing.

(** For a path of a recognized kind, [check_file] returns a count exactly
    when, on every line of the content, the first ["m_"] (if any) is
    followed by a character that does not begin another ["m_"]; otherwise
    it raises. *)
Theorem check_file_returns_iff year file_path file_str disable file_type :
  get_file_type file_path = Ok file_type ->
  (exists n outs,
     returns (check_file year file_path file_str disable) n outs)
  <-> Forall member_rule_defined (lines file_str).
Proof.
  intros Hft.
  destruct (check_file_returns_or_raises year file_path file_str disable
              file_type Hft) as [Hret Hraise].
  split; [|exact Hret].
  intros [n [outs Hn]].
  destruct (lines_defined_or_not (lines file_str)) as [H|H]; [exact H|].
  destruct (Hraise H) as [outs' Hr].
  specialize (Hn []). specialize (Hr []). rewrite Hn in Hr. discriminate Hr.
Qed.

(** On a line where the member-naming rule can be evaluated, the
    semicolon error is printed exactly for a Kotlin or Swift line whose
    last character is [";"]; a line that ends with its newline never gets
    it, so that only a last line without newline can. *)
Theorem semicolon_rule_last_line filename file_type disable i line
    error_count :
  member_rule_defined line ->
  exists n outs,
    returns (check_line filename file_type disable i line error_count)
            n outs
    /\ (errors_of LineEndsSemicolon outs
        = [Error filename (Some (i + 1)) LineEndsSemicolon]
        <-> (file_type = KOTLIN \/ file_type = SWIFT)
            /\ endswith (lit ";") line = true)
    /\ (forall body, line = body ++ [nl] ->
        errors_of LineEndsSemicolon outs = []).
Proof.
  intros [m Hm].
  destruct (check_line_returns filename disable file_type i line error_count
              m Hm) as [n [outs [H [Hs _]]]].
  exists n, outs. split; [exact H|]. rewrite Hs. split.
  - destruct (endswith (lit ";") line);
      destruct file_type; cbn [FileType_eqb orb andb];
      split; try discriminate; try tauto;
      intros [[Hk|Hk] He]; discriminate.
  - intros body ->. unfold endswith. rewrite rev_app_distr.
    cbn [rev app lit String.list_ascii_of_string startswith].
    rewrite andb_false_r. reflexivity.
Qed.


End Closing.

Lemma check_file_returns_iff_witness :
  get_file_type (lit "src/Foo.cpp") = Ok CPP
  /\ Forall member_rule_defined (lines (lit "int m_a;" ++ [nl]))
  /\ exists n outs,
       returns (check_file 2024 (lit "src/Foo.cpp") (lit "int m_a;" ++ [nl])
                           true) n outs.
Proof.
  assert (Forall member_rule_defined (lines (lit "int m_a;" ++ [nl]))) as H.
  { repeat constructor. exists false. reflexivity. }
  split; [reflexivity|]. split; [exact H|].
  exact (proj2 (check_file_returns_iff 2024 (lit "src/Foo.cpp")
                  (lit "int m_a;" ++ [nl]) true CPP eq_refl) H).
Defined.

Lemma semicolon_rule_last_line_witness :
  member_rule_defined (lit "val total = 1;")
  /\ exists n outs,
       returns (check_line (lit "Main.kt") KOTLIN true 0
                           (lit "val total = 1;") 0) n outs
       /\ errors_of LineEndsSemicolon outs
          = [Error (lit "Main.kt") (Some (0 + 1)) LineEndsSemicolon].
Proof.
  assert (member_rule_defined (lit "val total = 1;")) as Hm
    by (exists false; reflexivity).
  split; [exact Hm|].
  destruct (semicolon_rule_last_line (lit "Main.kt") KOTLIN true 0
              (lit "val total = 1;") 0 Hm) as [n [outs [H [Hs _]]]].
  exists n, outs. split; [exact H|].
  apply Hs. split; [left; reflexivity | reflexivity].
Defined.

Lemma check_file_blank_run_witness :
  let file_str := lit "a" ++ three_newlines ++ lit "b" ++ [nl] in
  let result := run (check_file 2024 (lit "src/Foo.cpp") file_str true) in
  result = (Ok 2, snd result)
  /\ errors_of ThreeNewlines (snd result)
     = [Error (lit "Foo.cpp") (Some 1) ThreeNewlines].
Proof.
  intros file_str result.
  assert (result = (Ok 2, snd result)) as H by (vm_compute; reflexivity).
  split; [exact H|].
  exact (check_file_blank_run 2024 (lit "src/Foo.cpp") file_str true 2
           (snd result) H).
Defined.

Lemma check_file_header_HPP_witness :
  let file_str := Spec.banner_header 2024 (lit "Foo.hpp") ++ [nl] in
  let result := run (check_file 2024 (lit "inc/Foo.hpp") file_str true) in
  get_file_type (lit "inc/Foo.hpp") = Ok HPP
  /\ result = (Ok 0, snd result)
  /\ errors_of InvalidHeader (snd result) = [].
Proof.
  intros file_str result.
  assert (result = (Ok 0, snd result)) as H by (vm_compute; reflexivity).
  split; [reflexivity|]. split; [exact H|].
  exact (check_file_header_HPP 2024 (lit "inc/Foo.hpp") file_str true 0
           (snd result) eq_refl H).
Defined.
